(** * Benchmark runner and report generator: a shallow embedding

    The repository holds two scripts.  [benchmark.py] times key generation,
    signing and verification for Ed25519 and secp256k1 and stores the
    averages in a dict; [illustrate.py] reads the stored timings back,
    validates them and draws a grouped bar chart.

    Python floats are IEEE binary64 numbers: they are embedded as Rocq's
    primitive floats.  Exceptions are values of [exn] with their class
    hierarchy, and code that reads the clock, draws keys, reads files, logs
    or plots runs in a state-and-exception monad over an explicit world.
    The results file that passes from one script to the other is followed
    down to its bytes: the text [csv.writer] writes, the encoding it is
    stored in and the decoding [pd.read_csv] starts with. *)

From Stdlib Require Import ZArith List String Ascii Floats Bool Lia.
From stdpp Require Import gmap strings list fin_maps pretty.

Set Warnings "-inexact-float,-clear-no-such-hyp".

Open Scope string_scope.
Open Scope list_scope.

(** ** Python exceptions *)

Module Py.

(** The exception classes the two scripts and their libraries can raise. *)
Inductive exn_class :=
  | BaseException
  | KeyboardInterrupt
  | Exception
  | ValueError
  | EmptyDataError        (* pandas.errors.EmptyDataError(ValueError) *)
  | ParserError           (* pandas.errors.ParserError(ValueError) *)
  | UnicodeError
  | UnicodeDecodeError
  | UnicodeEncodeError
  | OSError
  | FileNotFoundError
  | PermissionError
  | KeyError
  | TypeError
  | RuntimeError
  | InvalidSignature      (* cryptography.exceptions.InvalidSignature *)
  | BadSignatureError.    (* ecdsa.keys.BadSignatureError *)

#[global] Instance exn_class_eq_dec : EqDecision exn_class.
Proof. solve_decision. Defined.

(** The direct base class, [None] for the root. *)
Definition base (c : exn_class) : option exn_class :=
  match c with
  | BaseException => None
  | KeyboardInterrupt => Some BaseException
  | Exception => Some BaseException
  | ValueError => Some Exception
  | EmptyDataError => Some ValueError
  | ParserError => Some ValueError
  | UnicodeError => Some ValueError
  | UnicodeDecodeError => Some UnicodeError
  | UnicodeEncodeError => Some UnicodeError
  | OSError => Some Exception
  | FileNotFoundError => Some OSError
  | PermissionError => Some OSError
  | KeyError => Some Exception
  | TypeError => Some Exception
  | RuntimeError => Some Exception
  | InvalidSignature => Some Exception
  | BadSignatureError => Some Exception
  end.

(** [issubclass c d]: [d] is [c] or one of its bases (the hierarchy above
    is four classes deep). *)
Fixpoint issubclass_fuel (fuel : nat) (c d : exn_class) : bool :=
  bool_decide (c = d) ||
  match fuel with
  | O => false
  | S fuel' =>
      match base c with
      | Some b => issubclass_fuel fuel' b d
      | None => false
      end
  end.

Definition issubclass : exn_class -> exn_class -> bool := issubclass_fuel 4.

(** An exception object: its class and [str(e)]. *)
Record exn := mk_exn { exn_cls : exn_class; exn_msg : string }.

Definition isinstance (e : exn) (c : exn_class) : bool :=
  issubclass (exn_cls e) c.

(** ** The monad of effectful Python code *)

Inductive result (A : Type) :=
  | Ok (a : A)
  | Raise (e : exn).
Arguments Ok {A} a.
Arguments Raise {A} e.

Definition M (W A : Type) : Type := W -> result A * W.

Definition ret {W A} (a : A) : M W A := fun w => (Ok a, w).

Definition bind {W A B} (c : M W A) (k : A -> M W B) : M W B :=
  fun w =>
    match c w with
    | (Ok a, w') => k a w'
    | (Raise e, w') => (Raise e, w')
    end.

Definition raise {W A} (c : exn_class) (msg : string) : M W A :=
  fun w => (Raise (mk_exn c msg), w).

Definition lift {W A} (r : result A) : M W A := fun w => (r, w).

(** One [except (C1, ..., Cn) as e:] clause. *)
Record handler (W A : Type) := Except {
  catches : list exn_class;
  handle : exn -> M W A
}.
Arguments Except {W A} catches handle.
Arguments catches {W A} h.
Arguments handle {W A} h.

Definition handles {W A} (e : exn) (h : handler W A) : bool :=
  existsb (isinstance e) (catches h).

(** [try: body / except ...]: the first clause whose classes match the
    raised exception runs, in the world the body left behind; an exception
    raised inside a clause is not offered to the later clauses. *)
Definition try_except {W A} (body : M W A) (handlers : list (handler W A))
  : M W A :=
  fun w =>
    match body w with
    | (Ok a, w') => (Ok a, w')
    | (Raise e, w') =>
        match find (handles e) handlers with
        | Some h => handle h e w'
        | None => (Raise e, w')
        end
    end.

(** [for _ in range(n): body] *)
Fixpoint for_range {W} (n : nat) (body : M W unit) : M W unit :=
  match n with
  | O => ret tt
  | S n' => bind body (fun _ => for_range n' body)
  end.

(** ** Exceptions in pure code *)

Definition and_then {A B} (r : result A) (k : A -> result B) : result B :=
  match r with
  | Ok a => k a
  | Raise e => Raise e
  end.

(** ** [repr] of strings and lists of strings

    The texts formatted by the scripts are column names, operation labels
    and paths: printable, without quotes or backslashes, so [repr] only
    wraps them in single quotes. *)

Definition repr_str (s : string) : string := "'" ++ s ++ "'".

Fixpoint join (sep : string) (l : list string) : string :=
  match l with
  | [] => ""
  | [s] => s
  | s :: l' => s ++ sep ++ join sep l'
  end.

Definition repr_list (l : list string) : string :=
  "[" ++ join ", " (List.map repr_str l) ++ "]".

(** ** The built-in [float] on a [str]

    The language reference's grammar, for ASCII text: surrounding
    whitespace is dropped, then an optional sign and either [inf],
    [infinity] or [nan] in any case, or a decimal number with an optional
    fraction and exponent, whose digits may be grouped by single
    underscores.  The value is the binary64 number nearest to the decimal
    one, ties to even. *)

Local Open Scope Z_scope.

Definition is_space (c : ascii) : bool :=
  let n := nat_of_ascii c in
  ((9 <=? n) && (n <=? 13))%nat || (n =? 32)%nat.

Definition is_digit (c : ascii) : bool :=
  let n := nat_of_ascii c in ((48 <=? n) && (n <=? 57))%nat.

Definition digit_value (c : ascii) : Z := Z.of_nat (nat_of_ascii c) - 48.

Definition lower (c : ascii) : ascii :=
  let n := nat_of_ascii c in
  if ((65 <=? n) && (n <=? 90))%nat then ascii_of_nat (n + 32)%nat else c.

Fixpoint lstrip (l : list ascii) : list ascii :=
  match l with
  | c :: l' => if is_space c then lstrip l' else l
  | [] => []
  end.

Definition strip (l : list ascii) : list ascii :=
  rev (lstrip (rev (lstrip l))).

(** The digits after the first one of a digit part: the value read so far,
    the number of digits read so far, and what is left. *)
Fixpoint more_digits (l : list ascii) (value : Z) (count : Z)
  : Z * Z * list ascii :=
  match l with
  | c :: l' =>
      if is_digit c then more_digits l' (10 * value + digit_value c) (count + 1)
      else if Ascii.eqb c "_" then
        match l' with
        | d :: l'' =>
            if is_digit d
            then more_digits l'' (10 * value + digit_value d) (count + 1)
            else (value, count, l)
        | [] => (value, count, l)
        end
      else (value, count, l)
  | [] => (value, count, l)
  end.

(** A digit part continuing [value]; [None] when [l] starts with no digit. *)
Definition digitpart (l : list ascii) (value : Z) : option (Z * Z * list ascii) :=
  match l with
  | c :: l' =>
      if is_digit c then Some (more_digits l' (10 * value + digit_value c) 1)
      else None
  | [] => None
  end.

Definition take_sign (l : list ascii) : bool * list ascii :=
  match l with
  | "-"%char :: l' => (true, l')
  | "+"%char :: l' => (false, l')
  | _ => (false, l)
  end.

(** [number]: the digits as one integer and the count of fraction digits. *)
Definition number (l : list ascii) : option (Z * Z * list ascii) :=
  match digitpart l 0 with
  | Some (int, _, rest) =>
      match rest with
      | "."%char :: rest' =>
          match digitpart rest' int with
          | Some (both, n, rest'') => Some (both, n, rest'')
          | None => Some (int, 0, rest')
          end
      | _ => Some (int, 0, rest)
      end
  | None =>
      match l with
      | "."%char :: rest' => digitpart rest' 0
      | _ => None
      end
  end.

(** [exponent], when the text goes on after the number. *)
Definition exponent (l : list ascii) : option Z :=
  match l with
  | [] => Some 0
  | c :: l' =>
      if Ascii.eqb (lower c) "e" then
        let (neg, l'') := take_sign l' in
        match digitpart l'' 0 with
        | Some (e, _, []) => Some (if neg then - e else e)
        | _ => None
        end
      else None
  end.

(** The binary64 number nearest to [m * 10 ^ e10], for [m] positive.  A
    negative power of ten is divided out with 64 spare bits and a sticky
    bit, which leaves the rounding below exact. *)
Definition nearest_binary64 (neg : bool) (m : positive) (e10 : Z) : float :=
  (if 0 <=? e10 then
     SF2Prim (binary_round prec emax neg (m * Z.to_pos (10 ^ e10)) 0)
   else
     let d := 10 ^ (- e10) in
     let k := Z.max 0 (64 + Z.log2 d - Z.log2 (Zpos m)) in
     let n := Zpos m * 2 ^ k in
     let sticky := if n mod d =? 0 then 0 else 1 in
     match 2 * (n / d) + sticky with
     | Zpos q => SF2Prim (binary_round prec emax neg q (- k - 1))
     | _ => if neg then neg_zero else zero
     end)%Z.

Definition float_of_str (s : string) : option float :=
  let (neg, l) := take_sign (strip (list_ascii_of_string s)) in
  let word := string_of_list_ascii (List.map lower l) in
  if String.eqb word "inf" || String.eqb word "infinity" then
    Some (if neg then neg_infinity else infinity)
  else if String.eqb word "nan" then Some nan
  else
    match number l with
    | Some (m, fraction_digits, rest) =>
        match exponent rest with
        | Some e =>
            match m with
            | Zpos p => Some (nearest_binary64 neg p (e - fraction_digits))
            | _ => Some (if neg then neg_zero else zero)
            end
        | None => None
        end
    | None => None
    end.

End Py.

Import Py.

Declare Scope py_scope.
Delimit Scope py_scope with py.
Notation "x <- c ;; k" := (bind c (fun x => k))
  (at level 100, c at next level, right associativity) : py_scope.
Notation "c ;; k" := (bind c (fun _ => k))
  (at level 100, right associativity) : py_scope.
Open Scope py_scope.

(** ** Text, bytes and the [csv] writer *)

Module Codecs.

(** A [str] is held as the UTF-8 bytes of its characters and a [bytes]
    object as its bytes: both are Rocq strings.  The codecs are the two a
    host's preferred encoding is taken from here. *)
Inductive encoding := UTF8 | Latin1.

Definition codec_name (enc : encoding) : string :=
  match enc with
  | UTF8 => "utf-8"
  | Latin1 => "latin-1"
  end.

Definition bytes_of (s : string) : list nat :=
  List.map nat_of_ascii (list_ascii_of_string s).

Inductive decode_reason :=
  | InvalidStartByte
  | InvalidContinuationByte
  | UnexpectedEndOfData.

Definition reason_text (r : decode_reason) : string :=
  match r with
  | InvalidStartByte => "invalid start byte"
  | InvalidContinuationByte => "invalid continuation byte"
  | UnexpectedEndOfData => "unexpected end of data"
  end.

(** A character of several bytes under way: where it started, its first
    byte, how many bytes are still due, the range the next one must lie in
    and the bits read so far. *)
Record pending := Pending {
  started : nat;
  first_byte : nat;
  due : nat;
  low : nat;
  high : nat;
  bits : N
}.

(** The bytes [err_start .. err_end - 1] cannot be decoded. *)
Record decode_error := DecodeError {
  err_start : nat;
  err_end : nat;
  err_byte : nat;
  err_reason : decode_reason
}.

(** The first byte of a character of two, three or four bytes; the range
    of the second byte keeps out overlong forms, surrogates and code
    points above U+10FFFF. *)
Definition lead (pos b : nat) : option pending :=
  if Nat.leb 194 b && Nat.leb b 223 then
    Some (Pending pos b 1 128 191 (N.of_nat (b - 192)))
  else if Nat.eqb b 224 then Some (Pending pos b 2 160 191 0)
  else if Nat.leb 225 b && Nat.leb b 236 || Nat.eqb b 238 || Nat.eqb b 239 then
    Some (Pending pos b 2 128 191 (N.of_nat (b - 224)))
  else if Nat.eqb b 237 then Some (Pending pos b 2 128 159 13)
  else if Nat.eqb b 240 then Some (Pending pos b 3 144 191 0)
  else if Nat.leb 241 b && Nat.leb b 243 then
    Some (Pending pos b 3 128 191 (N.of_nat (b - 240)))
  else if Nat.eqb b 244 then Some (Pending pos b 3 128 143 4)
  else None.

(** The strict UTF-8 decoder: the code points of the bytes, or the first
    stretch that is no character.  [chars] holds the code points read so
    far, last first. *)
Fixpoint utf8_scan (bytes : list nat) (pos : nat) (st : option pending)
    (chars : list N) : list N + decode_error :=
  match bytes with
  | [] =>
      match st with
      | None => inl (rev chars)
      | Some p =>
          inr (DecodeError (started p) pos (first_byte p) UnexpectedEndOfData)
      end
  | b :: bytes' =>
      match st with
      | None =>
          if Nat.ltb b 128 then
            utf8_scan bytes' (S pos) None (N.of_nat b :: chars)
          else
            match lead pos b with
            | Some p => utf8_scan bytes' (S pos) (Some p) chars
            | None => inr (DecodeError pos (S pos) b InvalidStartByte)
            end
      | Some p =>
          if Nat.leb (low p) b && Nat.leb b (high p) then
            let bits' := (bits p * 64 + N.of_nat (b - 128))%N in
            match due p with
            | 1 => utf8_scan bytes' (S pos) None (bits' :: chars)
            | n =>
                utf8_scan bytes' (S pos)
                  (Some (Pending (started p) (first_byte p) (n - 1) 128 191 bits'))
                  chars
            end
          else
            inr (DecodeError (started p) pos (first_byte p)
                   InvalidContinuationByte)
      end
  end.

Definition code_points (bytes : string) : list N + decode_error :=
  utf8_scan (bytes_of bytes) 0 None [].

Definition hex_digit (n : nat) : string :=
  String (nth n (list_ascii_of_string "0123456789abcdef") "0"%char) "".

(** [width] hexadecimal digits of [n], lowest last. *)
Fixpoint hex (width : nat) (n : nat) : string :=
  match width with
  | O => ""
  | S width' => hex width' (n / 16) ++ hex_digit (n mod 16)
  end.

(** [str(e)] of a [UnicodeDecodeError]. *)
Definition decode_message (e : decode_error) : string :=
  "'utf-8' codec can't decode " ++
  (if Nat.eqb (err_end e) (S (err_start e)) then
     "byte 0x" ++ hex 2 (err_byte e) ++ " in position " ++ pretty (err_start e)
   else
     "bytes in position " ++ pretty (err_start e) ++ "-" ++
     pretty (err_end e - 1)) ++
  ": " ++ reason_text (err_reason e).

(** [bytes.decode("utf-8")] *)
Definition utf8_decode (bytes : string) : result string :=
  match code_points bytes with
  | inl _ => Ok bytes
  | inr e => Raise (mk_exn UnicodeDecodeError (decode_message e))
  end.

(** The Latin-1 bytes of the code points, or the position of the first one
    above 255. *)
Fixpoint latin1_bytes (chars : list N) (pos : nat) : string + nat :=
  match chars with
  | [] => inl ""
  | c :: chars' =>
      if (c <? 256)%N then
        match latin1_bytes chars' (S pos) with
        | inl s => inl (String (ascii_of_N c) s)
        | inr p => inr p
        end
      else inr pos
  end.

(** How many code points at the head of [chars] are above 255. *)
Fixpoint unencodable_run (chars : list N) : nat :=
  match chars with
  | [] => 0
  | c :: chars' => if (c <? 256)%N then 0 else S (unencodable_run chars')
  end.

(** [repr] of a character above U+00FF, as the error message shows it. *)
Definition escaped (c : N) : string :=
  if (c <? 65536)%N then "'\u" ++ hex 4 (N.to_nat c) ++ "'"
  else "'\U" ++ hex 8 (N.to_nat c) ++ "'".

(** [str(e)] of the [UnicodeEncodeError] for the code points from [pos]. *)
Definition encode_message (chars : list N) (pos : nat) : string :=
  let run := unencodable_run (skipn pos chars) in
  "'latin-1' codec can't encode " ++
  (if Nat.eqb run 1 then
     "character " ++ escaped (nth pos chars 0%N) ++ " in position " ++ pretty pos
   else
     "characters in position " ++ pretty pos ++ "-" ++ pretty (pos + run - 1)) ++
  ": ordinal not in range(256)".

(** [text.encode(enc)].  A Rocq string that is no UTF-8 holds no [str]:
    UTF-8 hands it on as it is and Latin-1 refuses it. *)
Definition encode (enc : encoding) (text : string) : result string :=
  match enc with
  | UTF8 => Ok text
  | Latin1 =>
      match code_points text with
      | inl chars =>
          match latin1_bytes chars 0 with
          | inl bytes => Ok bytes
          | inr pos => Raise (mk_exn UnicodeEncodeError (encode_message chars pos))
          end
      | inr e => Raise (mk_exn UnicodeEncodeError (decode_message e))
      end
  end.

(** *** [csv.writer] with its defaults

    The excel dialect: fields are separated by a comma, a line ends with
    carriage return and line feed, and a field is put between double
    quotes, with its own double quotes doubled, only when it holds a comma,
    a double quote or one of the two line-end characters. *)

Definition quotechar : ascii := "034"%char.
Definition lineterminator : string := String "013"%char (String "010"%char "").

Definition special (c : ascii) : bool :=
  Ascii.eqb c ","%char || Ascii.eqb c quotechar ||
  Ascii.eqb c "013"%char || Ascii.eqb c "010"%char.

Definition needs_quotes (field : string) : bool :=
  existsb special (list_ascii_of_string field).

Fixpoint double_quotes (s : string) : string :=
  match s with
  | EmptyString => EmptyString
  | String c s' =>
      if Ascii.eqb c quotechar then String c (String c (double_quotes s'))
      else String c (double_quotes s')
  end.

Definition csv_field (field : string) : string :=
  if needs_quotes field then
    String quotechar (double_quotes field ++ String quotechar "")
  else field.

(** The line of one row; a row of one empty field is written as a pair of
    quotes. *)
Definition csv_line (fields : list string) : string :=
  match fields with
  | [EmptyString] => String quotechar (String quotechar "")
  | _ => join "," (List.map csv_field fields)
  end ++ lineterminator.

End Codecs.

Import Codecs.

(** ** benchmark.py *)

Module Benchmark.

Definition ITERATIONS : nat := 1000.
Definition message : string := "benchmark test message".

Inductive scheme := Ed25519 | SECP256k1.

#[global] Instance scheme_eq_dec : EqDecision scheme.
Proof. solve_decision. Defined.

(** Keys and signatures of the two libraries, as an ideal signature scheme:
    a private key is the secret its generator drew, a signature records
    which key signed which message, and verification accepts exactly the
    signatures made with the matching private key over the same message. *)
Record private_key := PrivateKey { sk_scheme : scheme; sk_secret : nat }.
Record public_key := PublicKey { pk_scheme : scheme; pk_of_secret : nat }.
Record signature := Signature { sig_signer : public_key; sig_message : string }.

#[global] Instance private_key_eq_dec : EqDecision private_key.
Proof. solve_decision. Defined.
#[global] Instance public_key_eq_dec : EqDecision public_key.
Proof. solve_decision. Defined.

(** [ed_private.public_key()], [secp_private.verifying_key] *)
Definition public_key_of (sk : private_key) : public_key :=
  PublicKey (sk_scheme sk) (sk_secret sk).

(** What the host supplies: the successive readings of [time.time()] and
    the successive secrets of the key generators. *)
Record host := Host {
  clock : nat -> float;
  entropy : nat -> nat
}.

Inductive event :=
  | EvTime (t : float)
  | EvGenerate (sk : private_key)
  | EvSign (sk : private_key) (msg : string)
  | EvVerify (pk : public_key) (sig : signature) (msg : string).

Record state := State {
  time_calls : nat;
  generate_calls : nat;
  trace : list event
}.

Definition initial : state := State 0 0 [].

Section Runner.

Variable h : host.

(** [time.time()] *)
Definition time_time : M state float :=
  fun s =>
    let t := clock h (time_calls s) in
    (Ok t, State (S (time_calls s)) (generate_calls s) (trace s ++ [EvTime t])).

(** [Ed25519PrivateKey.generate()], [SigningKey.generate(curve=SECP256k1)] *)
Definition generate (sch : scheme) : M state private_key :=
  fun s =>
    let sk := PrivateKey sch (entropy h (generate_calls s)) in
    (Ok sk, State (time_calls s) (S (generate_calls s)) (trace s ++ [EvGenerate sk])).

(** [private.sign(message)] *)
Definition sign (sk : private_key) (msg : string) : M state signature :=
  fun s =>
    (Ok (Signature (public_key_of sk) msg),
     State (time_calls s) (generate_calls s) (trace s ++ [EvSign sk msg])).

Definition verify_error (pk : public_key) : exn :=
  match pk_scheme pk with
  | Ed25519 => mk_exn InvalidSignature ""
  | SECP256k1 => mk_exn BadSignatureError "Signature verification failed"
  end.

(** [public.verify(sig, message)] *)
Definition verify (pk : public_key) (sig : signature) (msg : string)
  : M state unit :=
  fun s =>
    let s' := State (time_calls s) (generate_calls s)
                    (trace s ++ [EvVerify pk sig msg]) in
    if bool_decide (sig_signer sig = pk) && String.eqb (sig_message sig) msg
    then (Ok tt, s')
    else (Raise (verify_error pk), s').

(** [(end - start) / ITERATIONS * 1e6] *)
Definition per_op_micros (start end_ : float) : float :=
  ((end_ - start) / 1000 * 1e6)%float.

Definition generate_key (sch : scheme) (label : string)
    (results : gmap string float) : M state (gmap string float) :=
  start <- time_time ;;
  for_range ITERATIONS (_ <- generate sch ;; ret tt) ;;
  end_ <- time_time ;;
  ret (<[label := per_op_micros start end_]> results).

Definition sign_message (sch : scheme) (label : string)
    (results : gmap string float) : M state (gmap string float) :=
  private <- generate sch ;;
  start <- time_time ;;
  for_range ITERATIONS (_ <- sign private message ;; ret tt) ;;
  end_ <- time_time ;;
  ret (<[label := per_op_micros start end_]> results).

Definition verify_message (sch : scheme) (label : string)
    (results : gmap string float) : M state (gmap string float) :=
  private <- generate sch ;;
  let public := public_key_of private in
  sig <- sign private message ;;
  start <- time_time ;;
  for_range ITERATIONS (verify public sig message) ;;
  end_ <- time_time ;;
  ret (<[label := per_op_micros start end_]> results).

Definition generate_key_ed25519 := generate_key Ed25519 "Ed25519 KeyGen".
Definition sign_message_ed25519 := sign_message Ed25519 "Ed25519 Signing".
Definition verify_message_ed25519 := verify_message Ed25519 "Ed25519 Verification".

Definition benchmark_ed25519 (results : gmap string float)
  : M state (gmap string float) :=
  results <- generate_key_ed25519 results ;;
  results <- sign_message_ed25519 results ;;
  results <- verify_message_ed25519 results ;;
  ret results.

Definition generate_key_secp256k1 := generate_key SECP256k1 "secp256k1 KeyGen".
Definition sign_message_secp256k1 := sign_message SECP256k1 "secp256k1 Signing".
Definition verify_message_secp256k1 :=
  verify_message SECP256k1 "secp256k1 Verification".

Definition benchmark_secp256k1 (results : gmap string float)
  : M state (gmap string float) :=
  results <- generate_key_secp256k1 results ;;
  results <- sign_message_secp256k1 results ;;
  results <- verify_message_secp256k1 results ;;
  ret results.

(** The first three statements of [main]: both benchmarks on a fresh dict. *)
Definition main_benchmarks : M state (gmap string float) :=
  let results : gmap string float := ∅ in
  results <- benchmark_ed25519 results ;;
  results <- benchmark_secp256k1 results ;;
  ret results.

End Runner.

(** *** [print_benchmark_results] *)

(** A line on the console: a text, or a row of the comparison table, whose
    three numbers are printed with two, two and one decimal places. *)
Inductive printed :=
  | Line (text : string)
  | TableRow (op : string) (ed_val secp_val ratio : float).

(** What stops the printing: [results[key]] without the key (KeyError), or
    a division by a zero Ed25519 time (ZeroDivisionError). *)
Inductive print_error :=
  | MissingKey (key : string)
  | FloatDivisionByZero.

Fixpoint spaces (n : nat) : string :=
  match n with
  | O => ""
  | S n' => " " ++ spaces n'
  end.

(** [f"{s:<width}"] *)
Definition ljust (width : nat) (s : string) : string :=
  s ++ spaces (width - String.length s).

Definition table_header : string :=
  ljust 12 "Operation" ++ " " ++ ljust 12 "Ed25519" ++ " " ++
  ljust 12 "secp256k1" ++ " " ++ ljust 8 "Ratio".

(** ["-" * 48] *)
Definition table_rule : string :=
  String.concat "" (repeat "-" 48).

(** The loop over [ops], from the lines printed so far. *)
Fixpoint print_rows (results : gmap string float) (ops : list string)
    (out : list printed) : list printed * option print_error :=
  match ops with
  | [] => (out, None)
  | op :: ops' =>
      let ed_key := ("Ed25519 " ++ op)%string in
      let secp_key := ("secp256k1 " ++ op)%string in
      match results !! ed_key with
      | None => (out, Some (MissingKey ed_key))
      | Some ed_val =>
          match results !! secp_key with
          | None => (out, Some (MissingKey secp_key))
          | Some secp_val =>
              if (ed_val =? 0)%float then (out, Some FloatDivisionByZero)
              else
                let ratio := (secp_val / ed_val)%float in
                print_rows results ops' (out ++ [TableRow op ed_val secp_val ratio])
          end
      end
  end.

(** The lines printed, and the error that ended the printing, if any. *)
Definition print_benchmark_results (results : gmap string float)
  : list printed * option print_error :=
  print_rows results ["KeyGen"; "Signing"; "Verification"]
    [Line table_header; Line table_rule].

(** The row printed for [op]: both times are there, the Ed25519 one is not
    zero, and the ratio is secp256k1 over Ed25519. *)
Definition row_of (results : gmap string float) (op : string) (row : printed)
  : Prop :=
  exists ed_val secp_val,
    results !! ("Ed25519 " ++ op)%string = Some ed_val /\
    results !! ("secp256k1 " ++ op)%string = Some secp_val /\
    (ed_val =? 0)%float = false /\
    row = TableRow op ed_val secp_val (secp_val / ed_val)%float.

(** Why no row is printed for [op]. *)
Definition fails_at (results : gmap string float) (op : string)
    (e : print_error) : Prop :=
  match results !! ("Ed25519 " ++ op)%string with
  | None => e = MissingKey ("Ed25519 " ++ op)
  | Some ed_val =>
      match results !! ("secp256k1 " ++ op)%string with
      | None => e = MissingKey ("secp256k1 " ++ op)
      | Some _ => (ed_val =? 0)%float = true /\ e = FloatDivisionByZero
      end
  end.

(** The labels each benchmark files its timings under. *)
Definition ed25519_labels : list string :=
  ["Ed25519 KeyGen"; "Ed25519 Signing"; "Ed25519 Verification"].
Definition secp256k1_labels : list string :=
  ["secp256k1 KeyGen"; "secp256k1 Signing"; "secp256k1 Verification"].

(** The host that answers the [k]-th clock reading with [k] seconds and the
    [i]-th key generation with the secret [i]. *)
Definition counting_host : host :=
  Host (fun k => of_uint63 (Uint63.of_Z (Z.of_nat k))) (fun i => i).

(** *** [save_csv_benchmark_results] *)

(** The host as the writer meets it: the encoding [open] uses when none is
    passed (the locale's preferred one), the files by path with their
    bytes, and the lines printed on the console.  Every path can be opened
    for writing. *)
Record files_host := FilesHost {
  preferred_encoding : encoding;
  disk : string -> option string;
  console : list string
}.

Section Writer.

(** [str(v)] of a float, the text [csv.writer] writes for it. *)
Variable float_repr : float -> string.

(** [writer.writerow(fields)] on a file opened in text mode with the
    encoding [enc] and [newline=""]: the line is encoded and appended to
    what was written before. *)
Definition writerow (enc : encoding) (fields : list string) (written : string)
  : result string :=
  and_then (encode enc (csv_line fields)) (fun bytes =>
  Ok (written ++ bytes)%string).

(** The loop over [results.items()], the dict's entries in insertion
    order. *)
Fixpoint write_items (enc : encoding) (items : list (string * float))
    (written : string) : result unit * string :=
  match items with
  | [] => (Ok tt, written)
  | (k, v) :: items' =>
      match writerow enc [k; float_repr v] written with
      | Ok written' => write_items enc items' written'
      | Raise e => (Raise e, written)
      end
  end.

(** [results] is the dict as its entries in insertion order.  The file is
    opened without [encoding=], so with the host's preferred encoding; it
    is emptied when opened and closed with what was written when the [with]
    block is left, also by an exception. *)
Definition save_csv_benchmark_results (results : list (string * float))
    (filename : string) : M files_host unit :=
  fun host =>
    let enc := preferred_encoding host in
    let '(r, written) :=
      match writerow enc ["Operation"; "Time (µs/op)"] "" with
      | Ok written => write_items enc results written
      | Raise e => (Raise e, "")
      end in
    let files :=
      fun path => if String.eqb path filename then Some written
                  else disk host path in
    match r with
    | Ok _ =>
        (Ok tt,
         FilesHost enc files
           (console host ++
            [("Benchmark results saved to '" ++ filename ++ "'")%string]))
    | Raise e => (Raise e, FilesHost enc files (console host))
    end.

End Writer.

End Benchmark.


(** ** illustrate.py *)

Module Illustrate.

(** *** Tables as pandas hands them over *)

(** A cell of a DataFrame column: text (a column read with dtype object)
    or a number (a numeric column, or a missing value, which is NaN). *)
Inductive cell :=
  | CStr (s : string)
  | CNum (v : float).

Record DataFrame := Frame {
  columns : list string;
  rows : list (list cell)
}.

(** [len(df)] *)
Definition len (df : DataFrame) : nat := List.length (rows df).

(** [col in df.columns] *)
Definition has_column (df : DataFrame) (col : string) : bool :=
  existsb (String.eqb col) (columns df).

Fixpoint position (col : string) (cols : list string) : option nat :=
  match cols with
  | [] => None
  | c :: cols' =>
      if String.eqb col c then Some O
      else option_map S (position col cols')
  end.

(** [df[col]]: the column's cells in row order, [KeyError] without it. *)
Definition getitem (df : DataFrame) (col : string) : result (list cell) :=
  match position col (columns df) with
  | Some i => Ok (List.map (fun row => nth i row (CNum nan)) (rows df))
  | None => Raise (mk_exn KeyError (repr_str col))
  end.

(** [c == op] for a label [op]: a number never equals a text. *)
Definition cell_is (op : string) (c : cell) : bool :=
  match c with
  | CStr s => String.eqb s op
  | CNum _ => false
  end.

(** [c1 == c2] between cells, as dict keys compare. *)
Definition cell_eqb (c1 c2 : cell) : bool :=
  match c1, c2 with
  | CStr s1, CStr s2 => String.eqb s1 s2
  | CNum v1, CNum v2 => PrimFloat.eqb v1 v2
  | _, _ => false
  end.

(** [float(c)] *)
Definition py_float (c : cell) : result float :=
  match c with
  | CNum v => Ok v
  | CStr s =>
      match float_of_str s with
      | Some v => Ok v
      | None =>
          Raise (mk_exn ValueError
                   ("could not convert string to float: " ++ repr_str s))
      end
  end.

(** [d[k] = v] on a dict kept in insertion order. *)
Fixpoint dict_set (d : list (cell * cell)) (k v : cell) : list (cell * cell) :=
  match d with
  | [] => [(k, v)]
  | (k', v') :: d' =>
      if cell_eqb k' k then (k', v) :: d' else (k', v') :: dict_set d' k v
  end.

(** [dict(pairs)] *)
Definition dict (pairs : list (cell * cell)) : list (cell * cell) :=
  fold_left (fun d kv => dict_set d (fst kv) (snd kv)) pairs [].

(** *** The world of the report generator *)

(** A file as [pd.read_csv] finds it: not there, there with no bytes,
    there with a header row and data rows, or there and rejected by the
    reader with an error of its own. *)
Inductive file :=
  | Missing
  | ZeroBytes
  | Table (df : DataFrame)
  | Unreadable (e : exn).

Record bar := Bar {
  bar_x : float;           (* left edge *)
  bar_height : float;
  bar_width : float
}.

(** A value label: where it is anchored and the height it prints with one
    decimal place. *)
Record value_label := ValueLabel {
  label_x : float;
  label_y : float;
  label_height : float
}.

Record figure := Figure {
  bars1 : list bar;
  bars2 : list bar;
  value_labels : list value_label;
  ylim : float * float;
  (** the environment block below the plot, one line per entry *)
  annotation : option (list (cell * cell))
}.

Inductive plt_call :=
  | Draw (fig : figure)
  | Savefig (path : string) (fig : figure)
  | Show (fig : figure).

Inductive level := INFO | WARNING | ERROR.

Inductive log_message :=
  | Text (s : string)
  (** [f"Loaded environment details: {details.keys()}"] *)
  | LoadedEnvironmentDetails (keys : list cell).

Record world := World {
  files : string -> file;
  (** the error, if any, with which matplotlib answers a call *)
  plt_error : plt_call -> option exn;
  log : list (level * log_message);
  saved : list (string * figure);
  shown : list figure
}.

Definition logger (lv : level) (msg : log_message) : M world unit :=
  fun w =>
    (Ok tt, World (files w) (plt_error w) (log w ++ [(lv, msg)]) (saved w) (shown w)).

(** [pd.read_csv(path)] *)
Definition read_csv (path : string) : M world DataFrame :=
  fun w =>
    match files w path with
    | Missing =>
        (Raise (mk_exn FileNotFoundError
                  ("[Errno 2] No such file or directory: " ++ repr_str path)), w)
    | ZeroBytes =>
        (Raise (mk_exn EmptyDataError "No columns to parse from file"), w)
    | Table df => (Ok df, w)
    | Unreadable e => (Raise e, w)
    end.

(** *** [load_and_validate_data] *)

Definition required_columns : list string := ["Operation"; "Time (µs/op)"].

Definition required_operations : list string :=
  ["Ed25519 KeyGen"; "Ed25519 Signing"; "Ed25519 Verification";
   "secp256k1 KeyGen"; "secp256k1 Signing"; "secp256k1 Verification"].

(** [op in set(values)] *)
Definition in_set (op : string) (values : list cell) : bool :=
  existsb (cell_is op) values.

(** A non-empty list is true. *)
Definition truthy {A} (l : list A) : bool :=
  match l with [] => false | _ :: _ => true end.

Definition load_and_validate_data (csv_path : string) : M world DataFrame :=
  try_except
    (df <- read_csv csv_path ;;
     logger INFO
       (Text ("Loaded benchmark data with " ++ pretty (len df) ++ " rows")) ;;
     let missing_columns :=
       List.filter (fun col => negb (has_column df col)) required_columns in
     if truthy missing_columns then
       raise ValueError ("Missing required columns: " ++ repr_list missing_columns)
     else
       operation <- lift (getitem df "Operation") ;;
       let existing_operations := operation in
       let missing_operations :=
         List.filter (fun op => negb (in_set op existing_operations))
           required_operations in
       if truthy missing_operations then
         raise ValueError
           ("Missing required operations: " ++ repr_list missing_operations)
       else ret df)
    [ Except [FileNotFoundError] (fun _ =>
        raise FileNotFoundError
          ("Benchmark results file not found: " ++ csv_path));
      Except [EmptyDataError] (fun _ =>
        raise ValueError "CSV file is empty") ].

(** *** [load_environment_details] *)

Definition load_environment_details (csv_path : string)
  : M world (list (cell * cell)) :=
  try_except
    (df <- read_csv csv_path ;;
     if negb (forallb (has_column df) ["Property"; "Value"]) then
       raise ValueError
         "Environment details CSV must have 'Property' and 'Value' columns"
     else
       property <- lift (getitem df "Property") ;;
       value <- lift (getitem df "Value") ;;
       let details := dict (combine property value) in
       logger INFO (LoadedEnvironmentDetails (List.map fst details)) ;;
       ret details)
    [ Except [FileNotFoundError] (fun _ =>
        logger WARNING
          (Text ("Environment details file not found: " ++ csv_path)) ;;
        ret []);
      Except [Exception] (fun e =>
        logger WARNING
          (Text ("Could not load environment details: " ++ exn_msg e)) ;;
        ret []) ].

(** *** [extract_benchmark_times] *)

Definition time_column : string := "Time (µs/op)".

(** [df.loc[df["Operation"] == op, "Time (µs/op)"]] *)
Definition matching_rows (df : DataFrame) (op : string) : result (list cell) :=
  and_then (getitem df "Operation") (fun operation =>
  and_then (getitem df time_column) (fun time =>
  Ok (List.map snd
        (List.filter (fun row => cell_is op (fst row))
           (combine operation time))))).

(** The loop of [get_times_for_curve], from the [times] collected so far. *)
Fixpoint get_times_loop (df : DataFrame) (ops : list string)
    (times : list float) : result (list float) :=
  match ops with
  | [] => Ok times
  | op :: ops' =>
      and_then (matching_rows df op) (fun matching =>
      match matching with
      | [] => Raise (mk_exn ValueError ("No data found for operation: " ++ op))
      | first :: _ =>
          and_then (py_float first) (fun t =>
          get_times_loop df ops' (times ++ [t]))
      end)
  end.

Definition get_times_for_curve (df : DataFrame) (ops : list string)
  : result (list float) :=
  get_times_loop df ops [].

Definition operations_ed25519 : list string :=
  ["Ed25519 KeyGen"; "Ed25519 Signing"; "Ed25519 Verification"].
Definition operations_secp256k1 : list string :=
  ["secp256k1 KeyGen"; "secp256k1 Signing"; "secp256k1 Verification"].

Definition extract_benchmark_times (df : DataFrame)
  : result (list float * list float) :=
  and_then (get_times_for_curve df operations_ed25519) (fun ed =>
  and_then (get_times_for_curve df operations_secp256k1) (fun secp =>
  Ok (ed, secp))).

(** *** [create_benchmark_chart] *)

(** [max(a, b)]: the later argument wins only when it is greater. *)
Definition py_max2 (a b : float) : float :=
  if (a <? b)%float then b else a.

(** [max(l)] *)
Definition py_max (l : list float) : result float :=
  match l with
  | [] => Raise (mk_exn ValueError "max() iterable argument is empty")
  | a :: l' => Ok (fold_left py_max2 l' a)
  end.

(** [np.arange(n)] *)
Definition arange (n : nat) : list float :=
  List.map (fun i => of_uint63 (Uint63.of_Z (Z.of_nat i))) (seq 0 n).

(** [ax.bar(x, height, width)]: centred bars; [height] has one entry per
    position, or a single entry that is used for all of them. *)
Definition ax_bar (x height : list float) (width : float) : result (list bar) :=
  let n := List.length x in
  let heights :=
    if (List.length height =? n)%nat then Some height
    else match height with
         | [height0] => Some (repeat height0 n)
         | _ => None
         end in
  match heights with
  | Some heights =>
      Ok (List.map (fun xh => Bar (fst xh - width / 2) (snd xh) width)
            (combine x heights))
  | None =>
      Raise (mk_exn ValueError
               "shape mismatch: objects cannot be broadcast to a single shape")
  end.

Definition add_value_labels (bars : list bar) : list value_label :=
  List.map (fun bar =>
    let height := bar_height bar in
    let y_offset := py_max2 (height * 0.02) 5 in
    ValueLabel (bar_x bar + bar_width bar / 2) (height + y_offset) height)
    bars.

(** A call into matplotlib: it raises what the library answers with, and
    otherwise [savefig] and [show] leave their mark on the world. *)
Definition plt (call : plt_call) : M world unit :=
  fun w =>
    match plt_error w call with
    | Some e => (Raise e, w)
    | None =>
        (Ok tt,
         match call with
         | Draw _ => w
         | Savefig path fig =>
             World (files w) (plt_error w) (log w) (saved w ++ [(path, fig)]) (shown w)
         | Show fig =>
             World (files w) (plt_error w) (log w) (saved w) (shown w ++ [fig])
         end)
    end.

Definition create_benchmark_chart (ed_times secp_times : list float)
    (env_details : list (cell * cell)) (output_path : string) : M world unit :=
  let categories := ["Key Generation"; "Signing"; "Verification"] in
  let x := arange (List.length categories) in
  let width := 0.35%float in
  bars1 <- lift (ax_bar (List.map (fun xi => xi - width / 2)%float x) ed_times width) ;;
  bars2 <- lift (ax_bar (List.map (fun xi => xi + width / 2)%float x) secp_times width) ;;
  let labels := add_value_labels bars1 ++ add_value_labels bars2 in
  ed_max <- lift (py_max ed_times) ;;
  secp_max <- lift (py_max secp_times) ;;
  let y_max := py_max2 ed_max secp_max in
  let fig :=
    Figure bars1 bars2 labels (0%float, (y_max * 1.15)%float)
      (if truthy env_details then Some env_details else None) in
  plt (Draw fig) ;;
  plt (Savefig output_path fig) ;;
  logger INFO (Text ("Chart saved to: " ++ output_path)) ;;
  plt (Show fig).

(** *** [main] and the script *)

Definition csv_file : string := "benchmark_results.csv".
Definition env_file : string := "env_info.csv".
Definition output_file : string := "benchmark_comparison.png".

Definition main : M world bool :=
  try_except
    (df <- load_and_validate_data csv_file ;;
     env_details <- load_environment_details env_file ;;
     times <- lift (extract_benchmark_times df) ;;
     create_benchmark_chart (fst times) (snd times) env_details output_file ;;
     ret true)
    [ Except [FileNotFoundError; ValueError; EmptyDataError] (fun e =>
        logger ERROR (Text ("Error: " ++ exn_msg e)) ;;
        ret false);
      Except [Exception] (fun e =>
        logger ERROR (Text ("Unexpected error: " ++ exn_msg e)) ;;
        ret false) ].

(** How the process ends: with an exit status, or on an exception nothing
    caught. *)
Inductive termination :=
  | Exit (status : nat)
  | Uncaught (e : exn).

(** [if not main(): exit(1)] *)
Definition script (w : world) : termination * world :=
  match main w with
  | (Ok true, w') => (Exit 0, w')
  | (Ok false, w') => (Exit 1, w')
  | (Raise e, w') => (Uncaught e, w')
  end.

(** *** Vocabulary of the statements below *)

(** [msg] names [s]: [s] occurs in it. *)
Definition names (msg s : string) : Prop :=
  exists before after : string, msg = (before ++ s ++ after)%string.

(** The rows of a table as (operation, time) pairs, in file order. *)
Definition timing_rows (df : DataFrame) : result (list (cell * cell)) :=
  and_then (getitem df "Operation") (fun operation =>
  and_then (getitem df time_column) (fun time =>
  Ok (combine operation time))).

(** The time cell of the first row labelled [op]. *)
Definition first_time (rows : list (cell * cell)) (op : string) : option cell :=
  option_map snd (List.find (fun row => cell_is op (fst row)) rows).

(** The loop of [get_times_for_curve] over the (operation, time) pairs. *)
Fixpoint times_of (rows : list (cell * cell)) (ops : list string)
    (times : list float) : result (list float) :=
  match ops with
  | [] => Ok times
  | op :: ops' =>
      match first_time rows op with
      | None => Raise (mk_exn ValueError ("No data found for operation: " ++ op))
      | Some c =>
          and_then (py_float c) (fun t => times_of rows ops' (times ++ [t]))
      end
  end.

(** A row of the results file: a label and a number. *)
Definition timing_row (entry : string * float) : cell * cell :=
  (CStr (fst entry), CNum (snd entry)).

(** The table of a results file with the given entries. *)
Definition results_table (entries : list (string * float)) : DataFrame :=
  Frame required_columns
    (List.map (fun entry => [CStr (fst entry); CNum (snd entry)]) entries).

(** The same with the time column read as text. *)
Definition text_table (entries : list (string * string)) : DataFrame :=
  Frame required_columns
    (List.map (fun entry => [CStr (fst entry); CStr (snd entry)]) entries).

Definition example_entries : list (string * float) :=
  [("Ed25519 KeyGen", 12.3%float); ("Ed25519 Signing", 8.1%float);
   ("Ed25519 Verification", 15.4%float); ("secp256k1 KeyGen", 110.2%float);
   ("secp256k1 Signing", 95.7%float); ("secp256k1 Verification", 140.9%float)].

(** [t] is the time of the first row labelled [op]. *)
Definition first_row_time (rows : list (cell * cell)) (op : string) (t : float)
  : Prop :=
  exists c, first_time rows op = Some c /\ py_float c = Ok t.

(** A table with a second Ed25519 KeyGen row below the first. *)
Definition duplicate_rows_before : list (list cell) :=
  [[CStr "Ed25519 KeyGen"; CNum 12.3]; [CStr "Ed25519 Signing"; CNum 8.1]].
Definition duplicate_row : list cell := [CStr "Ed25519 KeyGen"; CNum 99.9].
Definition duplicate_rows_after : list (list cell) :=
  [[CStr "Ed25519 Verification"; CNum 15.4]; [CStr "secp256k1 KeyGen"; CNum 110.2];
   [CStr "secp256k1 Signing"; CNum 95.7]; [CStr "secp256k1 Verification"; CNum 140.9]].

(** The world after more records were logged. *)
Definition logged (w : world) (records : list (level * log_message)) : world :=
  World (files w) (plt_error w) (log w ++ records) (saved w) (shown w).

(** What [load_and_validate_data] logs once the table is read. *)
Definition loaded_record (df : DataFrame) : level * log_message :=
  (INFO, Text ("Loaded benchmark data with " ++ pretty (len df) ++ " rows")).

(** The required labels no row of the column carries. *)
Definition absent_operations (operation : list cell) : list string :=
  List.filter (fun op => negb (in_set op operation)) required_operations.

(** What [main] logs when it catches [e] as a known condition. *)
Definition error_record (e : exn) : level * log_message :=
  (ERROR, Text ("Error: " ++ exn_msg e)).

(** A results table without its secp256k1 Verification row. *)
Definition five_entries : list (string * float) :=
  [("Ed25519 KeyGen", 12.3%float); ("Ed25519 Signing", 8.1%float);
   ("Ed25519 Verification", 15.4%float); ("secp256k1 KeyGen", 110.2%float);
   ("secp256k1 Signing", 95.7%float)].

(** A results table whose first time was stored with its unit: the time
    column stays text. *)
Definition entries_with_unit : list (string * string) :=
  [("Ed25519 KeyGen", "12.3us"); ("Ed25519 Signing", "8.1");
   ("Ed25519 Verification", "15.4"); ("secp256k1 KeyGen", "110.2");
   ("secp256k1 Signing", "95.7"); ("secp256k1 Verification", "140.9")].

(** Every time cell is a number. *)
Definition numeric_times (rows : list (cell * cell)) : Prop :=
  Forall (fun row => exists v, snd row = CNum v) rows.

(** What [float] raises on a text it rejects. *)
Definition conversion_error (s : string) : exn :=
  mk_exn ValueError ("could not convert string to float: " ++ repr_str s).

(** What [get_times_for_curve] raises when no row carries the label. *)
Definition no_data_error (op : string) : exn :=
  mk_exn ValueError ("No data found for operation: " ++ op).

(** A world with the given files, a plotting library that raises nothing,
    and nothing logged, saved or shown yet. *)
Definition fresh_world (fs : string -> file) : world :=
  World fs (fun _ => None) [] [] [].

(** Two files by name, every other path missing. *)
Definition two_files (results environment : file) : string -> file :=
  fun path =>
    if String.eqb path csv_file then results
    else if String.eqb path env_file then environment
    else Missing.

(** The environment file cannot be used: it is missing, empty, rejected by
    the reader, or lacks one of its two columns. *)
Definition unusable (f : file) : Prop :=
  match f with
  | Missing => True
  | ZeroBytes => True
  | Unreadable e => isinstance e Exception = true
  | Table df => forallb (has_column df) ["Property"; "Value"] = false
  end.

(** [d.get(key)] on a dict kept in insertion order. *)
Definition dict_get (d : list (cell * cell)) (key : cell) : option cell :=
  option_map snd (List.find (fun kv => cell_eqb (fst kv) key) d).

(** *** The results file from its bytes *)

(** What [pd.read_csv] makes of a file's bytes: no bytes are no columns to
    parse; otherwise the bytes are decoded as UTF-8, the reader's default
    encoding, with errors raised, and the text goes to pandas' tokenizer
    and type inference, [parse]. *)
Definition pandas_reads (parse : string -> file) (bytes : string) : file :=
  match bytes with
  | EmptyString => ZeroBytes
  | _ =>
      match utf8_decode bytes with
      | Ok text => parse text
      | Raise e => Unreadable e
      end
  end.

(** The files [pd.read_csv] finds on a disk. *)
Definition files_on_disk (parse : string -> file)
    (disk : string -> option string) : string -> file :=
  fun path =>
    match disk path with
    | None => Missing
    | Some bytes => pandas_reads parse bytes
    end.

(** The header line of the results file under each encoding. *)
Definition header_line : string := csv_line ["Operation"; "Time (µs/op)"].

(** What the reader raises on the header written in Latin-1. *)
Definition header_decode_error : exn :=
  mk_exn UnicodeDecodeError
    "'utf-8' codec can't decode byte 0xb5 in position 16: invalid start byte".

End Illustrate.

(** ** The results file between the two scripts *)

Module RoundTrip.

Import Benchmark Illustrate.

(** The disk once the runner has saved [results] on [host] under the
    default file name. *)
Definition disk_after_save (float_repr : float -> string)
    (results : list (string * float)) (host : files_host)
  : string -> option string :=
  disk (snd (save_csv_benchmark_results float_repr results
               "benchmark_results.csv" host)).

(** The world the report generator then starts in: the files of that disk
    as [pd.read_csv] reads them. *)
Definition report_world (float_repr : float -> string) (parse : string -> file)
    (results : list (string * float)) (host : files_host) : world :=
  fresh_world (files_on_disk parse (disk_after_save float_repr results host)).

(** The header line as a Latin-1 host writes it: the micro sign is the
    single byte 181. *)
Definition latin1_header_line : string :=
  "Operation,Time (" ++ String "181"%char "s/op)" ++ lineterminator.

(** The text of the rows of the results file. *)
Fixpoint row_lines (float_repr : float -> string)
    (results : list (string * float)) : string :=
  match results with
  | [] => ""
  | (k, v) :: results' =>
      csv_line [k; float_repr v] ++ row_lines float_repr results'
  end.

End RoundTrip.

(** * Properties of the benchmark runner *)

Module BenchmarkFacts.

Import Benchmark.

Section Runner.

Variable h : host.

Lemma bind_ok {W A B} (c : M W A) (k : A -> M W B) w a w' :
  c w = (Ok a, w') -> bind c k w = k a w'.
Proof. intros E. unfold bind. now rewrite E. Qed.

Lemma for_range_generate sch n : forall s,
  for_range n (_ <- generate h sch ;; ret tt) s =
  (Ok tt,
   State (time_calls s) (generate_calls s + n)
     (trace s ++
      List.map (fun i => EvGenerate (PrivateKey sch (entropy h (generate_calls s + i))))
        (seq 0 n))).
Proof.
  induction n as [|n IH]; intros s; simpl.
  - unfold ret. destruct s as [t g tr]; simpl.
    now rewrite Nat.add_0_r, app_nil_r.
  - unfold bind at 1. unfold bind at 1. simpl. unfold ret at 1. rewrite IH. simpl.
    f_equal. f_equal; [lia|].
    rewrite <- app_assoc. simpl. rewrite Nat.add_0_r. do 2 f_equal.
    rewrite <- seq_shift, List.map_map.
    apply List.map_ext. intros i. do 3 f_equal. lia.
Qed.

Lemma for_range_sign sk msg n : forall s,
  for_range n (_ <- sign sk msg ;; ret tt) s =
  (Ok tt,
   State (time_calls s) (generate_calls s)
     (trace s ++ repeat (EvSign sk msg) n)).
Proof.
  induction n as [|n IH]; intros s; simpl.
  - unfold ret. destruct s; simpl. now rewrite app_nil_r.
  - unfold bind at 1. unfold bind at 1. simpl. unfold ret at 1. rewrite IH. simpl.
    now rewrite <- app_assoc.
Qed.

Lemma for_range_verify sk msg n : forall s,
  for_range n (verify (public_key_of sk) (Signature (public_key_of sk) msg) msg) s =
  (Ok tt,
   State (time_calls s) (generate_calls s)
     (trace s ++
      repeat (EvVerify (public_key_of sk) (Signature (public_key_of sk) msg) msg) n)).
Proof.
  induction n as [|n IH]; intros s; simpl.
  - unfold ret. destruct s; simpl. now rewrite app_nil_r.
  - unfold bind at 1. unfold verify at 1. simpl.
    rewrite bool_decide_eq_true_2 by reflexivity.
    rewrite String.eqb_refl. simpl. rewrite IH. simpl.
    now rewrite <- app_assoc.
Qed.

(** The key generation phase: two clock readings around [ITERATIONS] key
    generations, and one new entry under [label]. *)
Lemma generate_key_run sch label results s :
  generate_key h sch label results s =
  (Ok (<[label := per_op_micros (clock h (time_calls s)) (clock h (S (time_calls s)))]> results),
   State (S (S (time_calls s))) (generate_calls s + ITERATIONS)
     (trace s ++
      [EvTime (clock h (time_calls s))] ++
      List.map (fun i => EvGenerate (PrivateKey sch (entropy h (generate_calls s + i))))
        (seq 0 ITERATIONS) ++
      [EvTime (clock h (S (time_calls s)))])).
Proof.
  unfold generate_key.
  unfold bind at 1. unfold time_time at 1. cbv beta iota.
  unfold bind at 1. rewrite for_range_generate. cbv beta iota.
  unfold bind at 1. unfold time_time at 1. cbv beta iota.
  unfold ret. cbn [time_calls generate_calls trace].
  now rewrite <- !app_assoc.
Qed.

(** The signing phase: one key, generated before the first clock reading;
    between the two readings nothing but [ITERATIONS] signatures with that
    key. *)
Lemma sign_message_run sch label results s :
  let sk := PrivateKey sch (entropy h (generate_calls s)) in
  sign_message h sch label results s =
  (Ok (<[label := per_op_micros (clock h (time_calls s)) (clock h (S (time_calls s)))]> results),
   State (S (S (time_calls s))) (S (generate_calls s))
     (trace s ++
      [EvGenerate sk; EvTime (clock h (time_calls s))] ++
      repeat (EvSign sk message) ITERATIONS ++
      [EvTime (clock h (S (time_calls s)))])).
Proof.
  intros sk. unfold sign_message.
  unfold bind at 1. unfold generate at 1. cbv beta iota.
  unfold bind at 1. unfold time_time at 1. cbv beta iota.
  unfold bind at 1. rewrite for_range_sign. cbv beta iota.
  unfold bind at 1. unfold time_time at 1. cbv beta iota.
  unfold ret. cbn [time_calls generate_calls trace].
  now rewrite <- !app_assoc.
Qed.

(** The verification phase: a key of its own, generated before the first
    clock reading, one signature with it, and between the two readings
    nothing but [ITERATIONS] verifications of that signature. *)
Lemma verify_message_run sch label results s :
  let sk := PrivateKey sch (entropy h (generate_calls s)) in
  let pk := public_key_of sk in
  let sig := Signature pk message in
  verify_message h sch label results s =
  (Ok (<[label := per_op_micros (clock h (time_calls s)) (clock h (S (time_calls s)))]> results),
   State (S (S (time_calls s))) (S (generate_calls s))
     (trace s ++
      [EvGenerate sk; EvSign sk message; EvTime (clock h (time_calls s))] ++
      repeat (EvVerify pk sig message) ITERATIONS ++
      [EvTime (clock h (S (time_calls s)))])).
Proof.
  intros sk pk sig. unfold verify_message.
  unfold bind at 1. unfold generate at 1. cbv beta iota.
  unfold bind at 1. unfold sign at 1. cbv beta iota.
  unfold bind at 1. unfold time_time at 1. cbv beta iota.
  unfold bind at 1.
  change (public_key_of {| sk_scheme := sch; sk_secret := entropy h (generate_calls s) |})
    with (public_key_of sk).
  rewrite for_range_verify. cbv beta iota.
  unfold bind at 1. unfold time_time at 1. cbv beta iota.
  unfold ret. cbn [time_calls generate_calls trace].
  now rewrite <- !app_assoc.
Qed.

Lemma benchmark_ed25519_run results s :
  exists v1 v2 v3 s',
    benchmark_ed25519 h results s =
    (Ok (<["Ed25519 Verification" := v3]>
           (<["Ed25519 Signing" := v2]> (<["Ed25519 KeyGen" := v1]> results))), s').
Proof.
  unfold benchmark_ed25519, generate_key_ed25519, sign_message_ed25519,
    verify_message_ed25519.
  erewrite bind_ok by apply generate_key_run.
  erewrite bind_ok by apply sign_message_run.
  erewrite bind_ok by apply verify_message_run.
  unfold ret. eauto.
Qed.

Lemma benchmark_secp256k1_run results s :
  exists v1 v2 v3 s',
    benchmark_secp256k1 h results s =
    (Ok (<["secp256k1 Verification" := v3]>
           (<["secp256k1 Signing" := v2]> (<["secp256k1 KeyGen" := v1]> results))), s').
Proof.
  unfold benchmark_secp256k1, generate_key_secp256k1, sign_message_secp256k1,
    verify_message_secp256k1.
  erewrite bind_ok by apply generate_key_run.
  erewrite bind_ok by apply sign_message_run.
  erewrite bind_ok by apply verify_message_run.
  unfold ret. eauto.
Qed.

Lemma three_inserts_frame (results : gmap string float) k1 k2 k3 v1 v2 v3 label :
  label ∉ [k1; k2; k3] ->
  <[k3 := v3]> (<[k2 := v2]> (<[k1 := v1]> results)) !! label = results !! label.
Proof.
  intros Hn. rewrite !lookup_insert_ne; [done | | | ];
    intros ->; apply Hn; repeat constructor.
Qed.

Lemma three_inserts_dom (results : gmap string float) k1 k2 k3 v1 v2 v3 :
  dom (<[k3 := v3]> (<[k2 := v2]> (<[k1 := v1]> results))) =
  dom results ∪ list_to_set [k1; k2; k3].
Proof. rewrite !dom_insert_L. set_solver. Qed.

(** C10: each scheme's benchmark returns the mapping it was given with its
    own three labels set and every entry under another label unchanged, so
    the mapping [main] builds from the empty one holds exactly the six
    labels. *)
Theorem benchmarks_only_add_their_labels (results : gmap string float) (s : state) :
  (exists r1 s1,
     benchmark_ed25519 h results s = (Ok r1, s1) /\
     dom r1 = dom results ∪ list_to_set ed25519_labels /\
     forall label, label ∉ ed25519_labels -> r1 !! label = results !! label) /\
  (exists r2 s2,
     benchmark_secp256k1 h results s = (Ok r2, s2) /\
     dom r2 = dom results ∪ list_to_set secp256k1_labels /\
     forall label, label ∉ secp256k1_labels -> r2 !! label = results !! label) /\
  (exists r s',
     main_benchmarks h s = (Ok r, s') /\
     dom r = list_to_set (ed25519_labels ++ secp256k1_labels)).
Proof.
  split; [|split].
  - destruct (benchmark_ed25519_run results s) as (v1 & v2 & v3 & s1 & E).
    eexists _, s1. split; [exact E|]. split.
    + apply three_inserts_dom.
    + intros label Hn. now apply three_inserts_frame.
  - destruct (benchmark_secp256k1_run results s) as (v1 & v2 & v3 & s2 & E).
    eexists _, s2. split; [exact E|]. split.
    + apply three_inserts_dom.
    + intros label Hn. now apply three_inserts_frame.
  - unfold main_benchmarks.
    destruct (benchmark_ed25519_run ∅ s) as (v1 & v2 & v3 & s1 & E1).
    erewrite bind_ok by exact E1. cbv beta.
    match goal with |- context [benchmark_secp256k1 h ?r] =>
      destruct (benchmark_secp256k1_run r s1) as (u1 & u2 & u3 & s2 & E2)
    end.
    erewrite bind_ok by exact E2.
    unfold ret. eexists _, s2. split; [reflexivity|].
    rewrite !three_inserts_dom, dom_empty_L.
    unfold ed25519_labels, secp256k1_labels. set_solver.
Qed.

End Runner.

(** C2: on the counting host the signing phase of the Ed25519 benchmark
    times signatures made with the key of secret 1000, generated before its
    first clock reading; the verification phase then generates the key of
    secret 1001, signs with it and times verifications against its public
    half.  The two phases do not share a key pair. *)
Theorem verification_uses_a_second_key :
  let h := counting_host in
  let sk_sign := PrivateKey Ed25519 1000 in
  let sk_verify := PrivateKey Ed25519 1001 in
  let pk := public_key_of sk_verify in
  exists r1 s1 r2 s2 r3 s3 t0 t1 t2 t3,
    generate_key_ed25519 h ∅ initial = (Ok r1, s1) /\
    sign_message_ed25519 h r1 s1 = (Ok r2, s2) /\
    verify_message_ed25519 h r2 s2 = (Ok r3, s3) /\
    trace s2 =
      trace s1 ++ [EvGenerate sk_sign; EvTime t0] ++
      repeat (EvSign sk_sign message) ITERATIONS ++ [EvTime t1] /\
    trace s3 =
      trace s2 ++ [EvGenerate sk_verify; EvSign sk_verify message; EvTime t2] ++
      repeat (EvVerify pk (Signature pk message) message) ITERATIONS ++ [EvTime t3] /\
    public_key_of sk_sign <> pk.
Proof.
  intros h sk_sign sk_verify pk.
  pose proof (generate_key_run h Ed25519 "Ed25519 KeyGen" ∅ initial) as E1.
  match type of E1 with _ = (Ok ?r, ?s) => set (r1 := r) in *; set (s1 := s) in * end.
  pose proof (sign_message_run h Ed25519 "Ed25519 Signing" r1 s1) as E2.
  cbv zeta in E2.
  match type of E2 with _ = (Ok ?r, ?s) => set (r2 := r) in *; set (s2 := s) in * end.
  pose proof (verify_message_run h Ed25519 "Ed25519 Verification" r2 s2) as E3.
  cbv zeta in E3.
  match type of E3 with _ = (Ok ?r, ?s) => set (r3 := r) in *; set (s3 := s) in * end.
  exists r1, s1, r2, s2, r3, s3, (clock h 2), (clock h 3), (clock h 4), (clock h 5).
  split; [exact E1|]. split; [exact E2|]. split; [exact E3|].
  split; [reflexivity|]. split; [reflexivity|].
  discriminate.
Qed.

End BenchmarkFacts.

(** * Properties of the report generator *)

Module IllustrateFacts.

Import Illustrate.

(** ** [float] on texts *)

Example float_of_decimal_texts :
  float_of_str "12.3" = Some 12.3%float /\
  float_of_str " 110.2 " = Some 110.2%float /\
  float_of_str "1e-05" = Some 1e-05%float /\
  float_of_str "-.5" = Some (-0.5)%float /\
  float_of_str "9007199254740993" = Some 9007199254740992%float /\
  float_of_str "1e400" = Some infinity.
Proof. repeat split; reflexivity. Qed.

Example float_of_other_texts :
  float_of_str "12.3us" = None /\
  float_of_str "" = None /\
  float_of_str "1e" = None /\
  float_of_str "1__0" = None.
Proof. repeat split; reflexivity. Qed.

(** ** Tables and their rows *)

Lemma has_column_position df col :
  has_column df col = true -> exists i, position col (columns df) = Some i.
Proof.
  unfold has_column. induction (columns df) as [|c cols IH]; simpl; [discriminate|].
  destruct (String.eqb col c); [eauto|]. simpl. intros H.
  destruct (IH H) as [i ->]. simpl. eauto.
Qed.

Lemma position_has_column df col i :
  position col (columns df) = Some i -> has_column df col = true.
Proof.
  unfold has_column. revert i. induction (columns df) as [|c cols IH]; simpl; [discriminate|].
  intros i. destruct (String.eqb col c); [reflexivity|]. simpl.
  destruct (position col cols); simpl; [eauto | discriminate].
Qed.

Lemma matching_rows_timing_rows df op :
  matching_rows df op =
  and_then (timing_rows df) (fun rows =>
    Ok (List.map snd (List.filter (fun row => cell_is op (fst row)) rows))).
Proof.
  unfold matching_rows, timing_rows.
  destruct (getitem df "Operation"); simpl; [|reflexivity].
  destruct (getitem df time_column); reflexivity.
Qed.

Lemma head_filter {A B} (P : A * B -> bool) rows :
  match List.map snd (List.filter P rows) with
  | [] => List.find P rows = None
  | first :: _ => option_map snd (List.find P rows) = Some first
  end.
Proof.
  induction rows as [|row rows IH]; simpl; [reflexivity|].
  destruct (P row); simpl; [reflexivity | exact IH].
Qed.

(** The loop reads the table through the first row of each label only. *)
Lemma get_times_loop_rows df rows ops : forall times,
  timing_rows df = Ok rows ->
  get_times_loop df ops times = times_of rows ops times.
Proof.
  induction ops as [|op ops IH]; intros times E; simpl; [reflexivity|].
  rewrite matching_rows_timing_rows, E. simpl. unfold first_time.
  pose proof (head_filter (fun row => cell_is op (fst row)) rows) as H.
  destruct (List.map snd (List.filter (fun row => cell_is op (fst row)) rows)) as [|first rest].
  - now rewrite H.
  - rewrite H. destruct (py_float first); simpl; [now apply IH | reflexivity].
Qed.

Lemma extract_rows df rows :
  timing_rows df = Ok rows ->
  extract_benchmark_times df =
  and_then (times_of rows operations_ed25519 []) (fun ed =>
  and_then (times_of rows operations_secp256k1 []) (fun secp => Ok (ed, secp))).
Proof.
  intros E. unfold extract_benchmark_times, get_times_for_curve.
  now rewrite !(get_times_loop_rows df rows) by exact E.
Qed.

Lemma timing_rows_frame cols rs i j :
  position "Operation" cols = Some i ->
  position time_column cols = Some j ->
  timing_rows (Frame cols rs) =
  Ok (List.map (fun row => (nth i row (CNum nan), nth j row (CNum nan))) rs).
Proof.
  intros Ei Ej. unfold timing_rows, getitem. simpl. rewrite Ei. simpl.
  rewrite Ej. simpl. f_equal.
  induction rs as [|row rs IH]; simpl; [reflexivity | now rewrite IH].
Qed.

Lemma first_time_entries entries op :
  first_time (List.map timing_row entries) op =
  option_map (fun entry => CNum (snd entry))
    (List.find (fun entry => String.eqb (fst entry) op) entries).
Proof.
  unfold first_time.
  induction entries as [|entry entries IH]; simpl; [reflexivity|].
  destruct (String.eqb (fst entry) op); [reflexivity | exact IH].
Qed.

Lemma find_label (entries : list (string * float)) op :
  In op (List.map fst entries) ->
  exists v,
    List.find (fun entry => String.eqb (fst entry) op) entries = Some (op, v) /\
    In (op, v) entries.
Proof.
  induction entries as [|[label v] entries IH]; simpl; [tauto|].
  intros [-> | Hin].
  - rewrite String.eqb_refl. eauto.
  - destruct (String.eqb label op) eqn:E.
    + apply String.eqb_eq in E. subst. eauto.
    + destruct (IH Hin) as (v' & Hf & Hi). eauto.
Qed.

(** The time of a label that a table of numbers carries. *)
Lemma first_time_found entries op :
  In op (List.map fst entries) ->
  exists v,
    first_time (List.map timing_row entries) op = Some (CNum v) /\
    In (op, v) entries.
Proof.
  intros Hin. destruct (find_label entries op Hin) as (v & Hf & Hi).
  exists v. rewrite first_time_entries, Hf. auto.
Qed.

Lemma times_of_three rows a b c va vb vc :
  first_time rows a = Some (CNum va) ->
  first_time rows b = Some (CNum vb) ->
  first_time rows c = Some (CNum vc) ->
  times_of rows [a; b; c] [] = Ok [va; vb; vc].
Proof. intros Ea Eb Ec. simpl. now rewrite Ea, Eb, Ec. Qed.

(** C1: on a table whose rows carry exactly the six labels, each with a
    positive number, extraction returns the Ed25519 triple and the
    secp256k1 triple, each in KeyGen, Signing, Verification order, and every
    entry is the number the table holds for its label; on the table of the
    example it returns [12.3, 8.1, 15.4] and [110.2, 95.7, 140.9]. *)
Theorem extraction_of_six_labels :
  (forall (df : DataFrame) (entries : list (string * float)),
     timing_rows df = Ok (List.map timing_row entries) ->
     Permutation (List.map fst entries) required_operations ->
     Forall (fun entry => (0 <? snd entry)%float = true) entries ->
     exists k1 s1 v1 k2 s2 v2,
       extract_benchmark_times df = Ok ([k1; s1; v1], [k2; s2; v2]) /\
       In ("Ed25519 KeyGen", k1) entries /\
       In ("Ed25519 Signing", s1) entries /\
       In ("Ed25519 Verification", v1) entries /\
       In ("secp256k1 KeyGen", k2) entries /\
       In ("secp256k1 Signing", s2) entries /\
       In ("secp256k1 Verification", v2) entries) /\
  extract_benchmark_times (results_table example_entries) =
  Ok ([12.3; 8.1; 15.4]%float, [110.2; 95.7; 140.9]%float).
Proof.
  split; [|reflexivity].
  intros df entries Hrows Hperm _.
  assert (Hall : forall op, In op required_operations ->
            exists v, first_time (List.map timing_row entries) op = Some (CNum v) /\
                      In (op, v) entries).
  { intros op Hop. apply first_time_found.
    apply (Permutation_in op (Permutation_sym Hperm) Hop). }
  destruct (Hall "Ed25519 KeyGen") as (k1 & Ek1 & Ik1); [simpl; tauto|].
  destruct (Hall "Ed25519 Signing") as (s1 & Es1 & Is1); [simpl; tauto|].
  destruct (Hall "Ed25519 Verification") as (v1 & Ev1 & Iv1); [simpl; tauto|].
  destruct (Hall "secp256k1 KeyGen") as (k2 & Ek2 & Ik2); [simpl; tauto|].
  destruct (Hall "secp256k1 Signing") as (s2 & Es2 & Is2); [simpl; tauto|].
  destruct (Hall "secp256k1 Verification") as (v2 & Ev2 & Iv2); [simpl; tauto|].
  exists k1, s1, v1, k2, s2, v2.
  rewrite (extract_rows df _ Hrows).
  unfold operations_ed25519, operations_secp256k1.
  rewrite (times_of_three _ _ _ _ _ _ _ Ek1 Es1 Ev1).
  rewrite (times_of_three _ _ _ _ _ _ _ Ek2 Es2 Ev2).
  simpl. tauto.
Qed.

Lemma extraction_of_six_labels_witness :
  timing_rows (results_table example_entries) = Ok (List.map timing_row example_entries) /\
  Permutation (List.map fst example_entries) required_operations /\
  Forall (fun entry => (0 <? snd entry)%float = true) example_entries /\
  exists k1 s1 v1 k2 s2 v2,
    extract_benchmark_times (results_table example_entries) =
      Ok ([k1; s1; v1], [k2; s2; v2]) /\
    In ("Ed25519 KeyGen", k1) example_entries /\
    In ("Ed25519 Signing", s1) example_entries /\
    In ("Ed25519 Verification", v1) example_entries /\
    In ("secp256k1 KeyGen", k2) example_entries /\
    In ("secp256k1 Signing", s2) example_entries /\
    In ("secp256k1 Verification", v2) example_entries.
Proof.
  assert (H1 : timing_rows (results_table example_entries) =
               Ok (List.map timing_row example_entries)) by reflexivity.
  assert (H2 : Permutation (List.map fst example_entries) required_operations)
    by apply Permutation_refl.
  assert (H3 : Forall (fun entry => (0 <? snd entry)%float = true) example_entries)
    by (repeat constructor).
  split; [exact H1|]. split; [exact H2|]. split; [exact H3|].
  exact (proj1 extraction_of_six_labels _ _ H1 H2 H3).
Defined.

(** ** Rows with the same label *)

Lemma times_of_first_rows rows ops : forall times ts,
  times_of rows ops times = Ok ts ->
  exists new, ts = times ++ new /\ Forall2 (first_row_time rows) ops new.
Proof.
  induction ops as [|op ops IH]; intros times ts; simpl.
  - intros [= <-]. exists []. split; [now rewrite app_nil_r | constructor].
  - destruct (first_time rows op) as [c|] eqn:Ec; [|discriminate].
    destruct (py_float c) as [t|] eqn:Et; simpl; [|discriminate].
    intros H. destruct (IH _ _ H) as (new & -> & Hnew).
    exists (t :: new). split; [now rewrite <- app_assoc|].
    constructor; [exists c; auto | exact Hnew].
Qed.

Lemma times_of_ext rows rows' ops :
  (forall op, first_time rows op = first_time rows' op) ->
  forall times, times_of rows ops times = times_of rows' ops times.
Proof.
  intros Hext. induction ops as [|op ops IH]; intros times; simpl; [reflexivity|].
  rewrite <- Hext. destruct (first_time rows op); [|reflexivity].
  destruct (py_float c); simpl; [apply IH | reflexivity].
Qed.

Lemma find_app_split {A} (P : A -> bool) l1 l2 :
  List.find P (l1 ++ l2) =
  match List.find P l1 with
  | Some x => Some x
  | None => List.find P l2
  end.
Proof.
  induction l1 as [|x l1 IH]; simpl; [reflexivity|].
  destruct (P x); [reflexivity | exact IH].
Qed.

Lemma find_later_duplicate {A} (P : A -> bool) l1 x l2 :
  (P x = true -> exists y, In y l1 /\ P y = true) ->
  List.find P (l1 ++ x :: l2) = List.find P (l1 ++ l2).
Proof.
  intros Hdup. rewrite !find_app_split.
  destruct (List.find P l1) eqn:E; [reflexivity|]. simpl.
  destruct (P x) eqn:Ex; [|reflexivity].
  destruct (Hdup eq_refl) as (y & Hy & Py).
  apply (find_none _ _ E) in Hy. congruence.
Qed.

Lemma cell_is_label op op' c :
  c = CStr op -> cell_is op' c = true -> op' = op.
Proof. intros -> H. simpl in H. now apply String.eqb_eq in H. Qed.

Lemma extract_without_time_column cols rs rs' i :
  position "Operation" cols = Some i ->
  position time_column cols = None ->
  extract_benchmark_times (Frame cols rs) = extract_benchmark_times (Frame cols rs').
Proof.
  intros Ei Ej.
  unfold extract_benchmark_times, get_times_for_curve, operations_ed25519.
  simpl. unfold matching_rows, getitem. simpl. rewrite Ei, Ej. reflexivity.
Qed.

(** C9: every entry extraction returns is the time of the first row, in
    file order, that carries its label; and a row whose label already
    stands on a row above it changes nothing: with or without it
    extraction gives the same result, so a repeated label is never an
    error. *)
Theorem extraction_uses_first_row :
  (forall df rows ed secp,
     timing_rows df = Ok rows ->
     extract_benchmark_times df = Ok (ed, secp) ->
     Forall2 (first_row_time rows) operations_ed25519 ed /\
     Forall2 (first_row_time rows) operations_secp256k1 secp) /\
  (forall cols rows1 row rows2 i op,
     position "Operation" cols = Some i ->
     (exists above, In above rows1 /\ nth i above (CNum nan) = CStr op) ->
     nth i row (CNum nan) = CStr op ->
     extract_benchmark_times (Frame cols (rows1 ++ row :: rows2)) =
     extract_benchmark_times (Frame cols (rows1 ++ rows2))).
Proof.
  split.
  - intros df rows ed secp Hrows. rewrite (extract_rows df rows Hrows).
    destruct (times_of rows operations_ed25519 []) as [ed'|] eqn:E1;
      cbn [and_then]; [|discriminate].
    destruct (times_of rows operations_secp256k1 []) as [secp'|] eqn:E2;
      cbn [and_then]; [|discriminate].
    intros [= <- <-].
    destruct (times_of_first_rows _ _ _ _ E1) as (n1 & -> & H1).
    destruct (times_of_first_rows _ _ _ _ E2) as (n2 & -> & H2).
    auto.
  - intros cols rows1 row rows2 i op Ei (above & Hin & Habove) Hrow.
    destruct (position time_column cols) as [j|] eqn:Ej.
    + rewrite !(extract_rows _ _ (timing_rows_frame cols _ i j Ei Ej)).
      set (f := fun r : list cell => (nth i r (CNum nan), nth j r (CNum nan))).
      assert (Hext : forall op',
                first_time (List.map f (rows1 ++ row :: rows2)) op' =
                first_time (List.map f (rows1 ++ rows2)) op').
      { intros op'. unfold first_time. rewrite !List.map_app. simpl.
        rewrite find_later_duplicate; [reflexivity|].
        intros Hm. exists (f above). split; [now apply in_map|].
        unfold f in *; simpl in *.
        rewrite (cell_is_label op op' _ Hrow Hm), Habove. simpl.
        apply String.eqb_refl. }
      now rewrite !(times_of_ext _ _ _ Hext).
    + now apply extract_without_time_column with (i := i).
Qed.

Lemma extraction_uses_first_row_witness :
  position "Operation" required_columns = Some 0 /\
  extract_benchmark_times
    (Frame required_columns
       (duplicate_rows_before ++ duplicate_row :: duplicate_rows_after)) =
  Ok ([12.3; 8.1; 15.4]%float, [110.2; 95.7; 140.9]%float).
Proof.
  split; [reflexivity|].
  rewrite (proj2 extraction_uses_first_row required_columns duplicate_rows_before
             duplicate_row duplicate_rows_after 0 "Ed25519 KeyGen" eq_refl).
  - reflexivity.
  - exists [CStr "Ed25519 KeyGen"; CNum 12.3%float]. split; [left|]; reflexivity.
  - reflexivity.
Defined.

(** ** Loading the results file *)

Lemma truthy_false {A} (l : list A) : truthy l = false -> l = [].
Proof. destruct l; [reflexivity | discriminate]. Qed.

Lemma filter_nil {A} (f : A -> bool) l :
  List.filter f l = [] -> forall x, In x l -> f x = false.
Proof.
  induction l as [|y l IH]; simpl; [tauto|].
  destruct (f y) eqn:E; [discriminate|].
  intros H x [<- | Hin]; auto.
Qed.

(** Reading a table: one record is logged, then the columns and the labels
    are checked; neither handler of [load_and_validate_data] takes the
    errors of these checks. *)
Lemma load_table path w df :
  files w path = Table df ->
  load_and_validate_data path w =
  (if truthy (List.filter (fun col => negb (has_column df col)) required_columns)
   then Raise (mk_exn ValueError
                 ("Missing required columns: " ++
                  repr_list (List.filter (fun col => negb (has_column df col))
                               required_columns)))
   else match getitem df "Operation" with
        | Ok operation =>
            if truthy (absent_operations operation)
            then Raise (mk_exn ValueError
                          ("Missing required operations: " ++
                           repr_list (absent_operations operation)))
            else Ok df
        | Raise e => Raise e
        end,
   logged w [loaded_record df]).
Proof.
  intros Hf.
  unfold load_and_validate_data, try_except, bind, read_csv, logger. rewrite Hf.
  cbv beta iota.
  destruct (truthy (List.filter (fun col => negb (has_column df col)) required_columns)) eqn:Ec.
  - reflexivity.
  - unfold lift.
    pose proof (filter_nil _ _ (truthy_false _ Ec) "Operation") as Hop.
    assert (Hc : has_column df "Operation" = true).
    { apply negb_false_iff, Hop. simpl. tauto. }
    destruct (has_column_position _ _ Hc) as [i Hi].
    unfold getitem. rewrite Hi.
    fold (absent_operations (List.map (fun row => nth i row (CNum nan)) (rows df))).
    destruct (truthy (absent_operations _)); reflexivity.
Qed.

Lemma load_missing path w :
  files w path = Missing ->
  load_and_validate_data path w =
  (Raise (mk_exn FileNotFoundError ("Benchmark results file not found: " ++ path)), w).
Proof.
  intros Hf. unfold load_and_validate_data, try_except, bind, read_csv.
  rewrite Hf. reflexivity.
Qed.

Lemma load_zero_bytes path w :
  files w path = ZeroBytes ->
  load_and_validate_data path w =
  (Raise (mk_exn ValueError "CSV file is empty"), w).
Proof.
  intros Hf. unfold load_and_validate_data, try_except, bind, read_csv.
  rewrite Hf. reflexivity.
Qed.

Lemma load_unreadable path w e :
  files w path = Unreadable e ->
  exists e', load_and_validate_data path w = (Raise e', w).
Proof.
  intros Hf. unfold load_and_validate_data, try_except, bind, read_csv.
  rewrite Hf. simpl.
  destruct (handles e _); [eexists; reflexivity|].
  destruct (handles e _); eexists; reflexivity.
Qed.

Lemma in_set_spec op operation :
  in_set op operation = true <-> In (CStr op) operation.
Proof.
  unfold in_set. rewrite existsb_exists. split.
  - intros (c & Hin & Hc). destruct c as [s|v]; simpl in Hc; [|discriminate].
    apply String.eqb_eq in Hc. now subst.
  - intros Hin. exists (CStr op). split; [exact Hin|]. apply String.eqb_refl.
Qed.

(** What the validator has checked when it returns a table. *)
Lemma load_accepts path w df w' :
  load_and_validate_data path w = (Ok df, w') ->
  exists operation,
    files w path = Table df /\
    getitem df "Operation" = Ok operation /\
    has_column df time_column = true /\
    (forall op, In op required_operations -> In (CStr op) operation) /\
    w' = logged w [loaded_record df].
Proof.
  destruct (files w path) as [| |df0|e] eqn:Hf.
  - rewrite (load_missing _ _ Hf). discriminate.
  - rewrite (load_zero_bytes _ _ Hf). discriminate.
  - rewrite (load_table _ _ _ Hf).
    destruct (truthy (List.filter _ required_columns)) eqn:Ec; [discriminate|].
    destruct (getitem df0 "Operation") as [operation|] eqn:Eo; [|discriminate].
    destruct (truthy (absent_operations operation)) eqn:Ea; [discriminate|].
    intros [= <- <-]. exists operation. repeat split; auto.
    + apply negb_false_iff.
      apply (filter_nil _ _ (truthy_false _ Ec) time_column). simpl. tauto.
    + intros op Hop. apply in_set_spec, negb_false_iff.
      now apply (filter_nil _ _ (truthy_false _ Ea) op).
  - destruct (load_unreadable _ _ _ Hf) as [e' ->]. discriminate.
Qed.

(** ** What [main] does with a results file it cannot use *)

Lemma main_known_error w e w1 :
  load_and_validate_data csv_file w = (Raise e, w1) ->
  existsb (isinstance e) [FileNotFoundError; ValueError; EmptyDataError] = true ->
  main w = (Ok false, logged w1 [error_record e]).
Proof.
  intros Hl Hc. unfold main, try_except, bind. rewrite Hl.
  unfold find, handles. cbn [catches]. rewrite Hc. reflexivity.
Qed.

Lemma script_of_main w b w' :
  main w = (Ok b, w') ->
  script w = (Exit (if b then 0 else 1), w').
Proof. intros H. unfold script. rewrite H. now destruct b. Qed.

(** A run in which every step returns. *)
Lemma main_success w df w1 env w2 ed secp w3 :
  load_and_validate_data csv_file w = (Ok df, w1) ->
  load_environment_details env_file w1 = (Ok env, w2) ->
  extract_benchmark_times df = Ok (ed, secp) ->
  create_benchmark_chart ed secp env output_file w2 = (Ok tt, w3) ->
  main w = (Ok true, w3) /\ script w = (Exit 0, w3).
Proof.
  intros Hl He Hx Hc.
  assert (Hm : main w = (Ok true, w3)).
  { unfold main, try_except, bind. rewrite Hl, He. unfold lift. rewrite Hx.
    cbn [fst snd]. rewrite Hc. reflexivity. }
  split; [exact Hm | exact (script_of_main _ _ _ Hm)].
Qed.

(** ** Messages *)

Lemma append_assoc (a b c : string) : ((a ++ b) ++ c = a ++ b ++ c)%string.
Proof.
  induction a as [|x a IH]; [reflexivity|].
  change (String x ((a ++ b) ++ c) = String x (a ++ b ++ c))%string.
  now rewrite IH.
Qed.

Lemma names_append_r msg s prefix : names msg s -> names (prefix ++ msg) s.
Proof.
  intros (b & a & ->). exists (prefix ++ b)%string, a. now rewrite append_assoc.
Qed.

Lemma names_append_l msg s suffix : names msg s -> names (msg ++ suffix) s.
Proof.
  intros (b & a & ->). exists b, (a ++ suffix)%string.
  now rewrite !append_assoc.
Qed.

Lemma names_self s : names s s.
Proof.
  exists ""%string, ""%string. change (s = s ++ "")%string.
  induction s as [|x s IH]; [reflexivity|].
  change (String x s = String x (s ++ ""))%string. now rewrite <- IH.
Qed.

Lemma names_trans msg mid s : names msg mid -> names mid s -> names msg s.
Proof.
  intros (b & a & ->) Hs.
  now apply names_append_r, names_append_l.
Qed.

Lemma names_join sep l s : In s l -> names (join sep l) s.
Proof.
  induction l as [|x l IH]; [intros []|].
  intros [-> | Hin].
  - destruct l; [apply names_self|]. cbn [join]. apply names_append_l, names_self.
  - destruct l as [|y l]; [destruct Hin|].
    change (join sep (x :: y :: l)) with (x ++ sep ++ join sep (y :: l))%string.
    now apply names_append_r, names_append_r, IH.
Qed.

Lemma names_repr_list prefix l s : In s l -> names (prefix ++ repr_list l) s.
Proof.
  intros Hin. apply names_append_r. unfold repr_list.
  apply names_append_r, names_append_l.
  apply names_trans with (mid := repr_str s).
  - apply names_join. now apply in_map.
  - unfold repr_str. apply names_append_r, names_append_l, names_self.
Qed.

Lemma logged_logged w a b : logged (logged w a) b = logged w (a ++ b).
Proof. unfold logged. simpl. now rewrite <- app_assoc. Qed.

Lemma getitem_has_column df col cells :
  getitem df col = Ok cells -> has_column df col = true.
Proof.
  unfold getitem. destruct (position col (columns df)) eqn:E; [|discriminate].
  intros _. now apply position_has_column with (i := n).
Qed.

Lemma has_required_columns df :
  has_column df "Operation" = true ->
  has_column df time_column = true ->
  List.filter (fun col => negb (has_column df col)) required_columns = [].
Proof.
  intros H1 H2. unfold required_columns. cbn [List.filter].
  change "Time (µs/op)" with time_column. now rewrite H1, H2.
Qed.

Lemma absent_operations_spec operation op :
  In op (absent_operations operation) <->
  In op required_operations /\ ~ In (CStr op) operation.
Proof.
  unfold absent_operations. rewrite filter_In, negb_true_iff.
  rewrite <- in_set_spec. destruct (in_set op operation); intuition congruence.
Qed.

Lemma truthy_in {A} (x : A) l : In x l -> truthy l = true.
Proof. destruct l; [intros [] | reflexivity]. Qed.

(** ** A label is missing *)

(** C3: when the results file is there with its two columns and no row
    carries one of the six labels, loading raises a ValueError whose message
    names every missing label; [main] reports it, returns False without
    saving or showing a chart, and the script exits with status 1. *)
Theorem missing_label_is_malformed_input (w : world) (path : string)
    (df : DataFrame) (operation : list cell) (op : string) :
  files w path = Table df ->
  getitem df "Operation" = Ok operation ->
  has_column df time_column = true ->
  In op required_operations ->
  ~ In (CStr op) operation ->
  exists msg,
    load_and_validate_data path w =
      (Raise (mk_exn ValueError msg), logged w [loaded_record df]) /\
    (forall op', In op' required_operations -> ~ In (CStr op') operation ->
                 names msg op') /\
    (path = csv_file ->
     let w' := logged w [loaded_record df; error_record (mk_exn ValueError msg)] in
     main w = (Ok false, w') /\ script w = (Exit 1, w') /\
     saved w' = saved w /\ shown w' = shown w).
Proof.
  intros Hf Ho Ht Hop Hno.
  exists ("Missing required operations: " ++ repr_list (absent_operations operation))%string.
  assert (Hl : load_and_validate_data path w =
               (Raise (mk_exn ValueError
                         ("Missing required operations: " ++
                          repr_list (absent_operations operation))),
                logged w [loaded_record df])).
  { rewrite (load_table _ _ _ Hf).
    rewrite (has_required_columns df (getitem_has_column _ _ _ Ho) Ht).
    cbn [truthy]. rewrite Ho.
    rewrite (truthy_in op); [reflexivity|].
    apply absent_operations_spec. auto. }
  split; [exact Hl|]. split.
  - intros op' Hop' Hno'. apply names_repr_list.
    apply absent_operations_spec. auto.
  - intros ->. cbv zeta.
    pose proof (main_known_error w _ _ Hl eq_refl) as Hm.
    rewrite logged_logged in Hm. cbn [app] in Hm.
    split; [exact Hm|]. split; [exact (script_of_main _ _ _ Hm)|].
    split; reflexivity.
Qed.

Lemma missing_label_is_malformed_input_witness :
  let w := fresh_world (two_files (Table (results_table five_entries)) Missing) in
  exists msg,
    load_and_validate_data csv_file w =
      (Raise (mk_exn ValueError msg),
       logged w [loaded_record (results_table five_entries)]) /\
    names msg "secp256k1 Verification" /\
    fst (script w) = Exit 1.
Proof.
  intros w.
  destruct (missing_label_is_malformed_input w csv_file (results_table five_entries)
              (List.map (fun entry => CStr (fst entry)) five_entries)
              "secp256k1 Verification")
    as (msg & Hl & Hn & Hm).
  - reflexivity.
  - reflexivity.
  - reflexivity.
  - simpl. tauto.
  - simpl. intuition discriminate.
  - exists msg. split; [exact Hl|]. split.
    + apply Hn; simpl; [tauto | intuition discriminate].
    + destruct (Hm eq_refl) as (_ & Hs & _). now rewrite Hs.
Defined.

(** ** The results file is not there, or empty *)

(** C4: where no results file exists, loading raises a FileNotFoundError
    whose message names the path; [main] catches it, logs it and returns
    False, and the script exits with status 1.  A run in which loading,
    extraction and drawing all return makes the script exit with
    status 0. *)
Theorem missing_results_file :
  (forall w path,
     files w path = Missing ->
     exists msg,
       load_and_validate_data path w = (Raise (mk_exn FileNotFoundError msg), w) /\
       names msg path) /\
  (forall w,
     files w csv_file = Missing ->
     exists msg,
       let w' := logged w [error_record (mk_exn FileNotFoundError msg)] in
       names msg csv_file /\
       main w = (Ok false, w') /\ script w = (Exit 1, w') /\
       saved w' = saved w /\ shown w' = shown w) /\
  (forall w df w1 env w2 ed secp w3,
     load_and_validate_data csv_file w = (Ok df, w1) ->
     load_environment_details env_file w1 = (Ok env, w2) ->
     extract_benchmark_times df = Ok (ed, secp) ->
     create_benchmark_chart ed secp env output_file w2 = (Ok tt, w3) ->
     main w = (Ok true, w3) /\ script w = (Exit 0, w3)).
Proof.
  split; [|split].
  - intros w path Hf. eexists. split; [apply (load_missing _ _ Hf)|].
    apply names_append_r, names_self.
  - intros w Hf. eexists. cbv zeta.
    pose proof (main_known_error w _ _ (load_missing _ _ Hf) eq_refl) as Hm.
    split; [apply names_append_r, names_self|].
    split; [exact Hm|]. split; [exact (script_of_main _ _ _ Hm)|].
    split; reflexivity.
  - exact main_success.
Qed.

Lemma missing_results_file_witness :
  let w := fresh_world (fun _ => Missing) in
  files w csv_file = Missing /\
  exists msg,
    load_and_validate_data csv_file w = (Raise (mk_exn FileNotFoundError msg), w) /\
    names msg csv_file.
Proof.
  intros w. split; [reflexivity|].
  exact (proj1 missing_results_file w csv_file eq_refl).
Defined.

(** C5: a results file of zero bytes, or one with a header row and no data
    row, makes loading raise a ValueError, which is not a
    FileNotFoundError; [main] reports it as a known condition, returns
    False, and the script exits with status 1. *)
Theorem empty_results_file (w : world) (path : string) :
  files w path = ZeroBytes \/ (exists cols, files w path = Table (Frame cols [])) ->
  exists msg w1,
    load_and_validate_data path w = (Raise (mk_exn ValueError msg), w1) /\
    isinstance (mk_exn ValueError msg) FileNotFoundError = false /\
    (path = csv_file ->
     let w' := logged w1 [error_record (mk_exn ValueError msg)] in
     main w = (Ok false, w') /\ script w = (Exit 1, w') /\
     saved w' = saved w /\ shown w' = shown w).
Proof.
  intros Hf.
  assert (Hl : exists msg w1,
             load_and_validate_data path w = (Raise (mk_exn ValueError msg), w1) /\
             saved w1 = saved w /\ shown w1 = shown w).
  { destruct Hf as [Hf | (cols & Hf)].
    - rewrite (load_zero_bytes _ _ Hf). eauto.
    - rewrite (load_table _ _ _ Hf).
      destruct (truthy (List.filter _ required_columns)) eqn:Ec; [eauto|].
      assert (Hc : has_column (Frame cols []) "Operation" = true).
      { apply negb_false_iff.
        apply (filter_nil _ _ (truthy_false _ Ec) "Operation"). simpl. tauto. }
      destruct (has_column_position _ _ Hc) as [i Hi].
      unfold getitem. rewrite Hi. cbn [rows List.map].
      change (truthy (absent_operations [])) with true. cbv iota. eauto. }
  destruct Hl as (msg & w1 & Hl & Hs1 & Hs2).
  exists msg, w1. split; [exact Hl|]. split; [reflexivity|].
  intros ->. cbv zeta.
  pose proof (main_known_error w _ _ Hl eq_refl) as Hm.
  split; [exact Hm|]. split; [exact (script_of_main _ _ _ Hm)|].
  split; assumption.
Qed.

Lemma empty_results_file_witness :
  let w := fresh_world (two_files (Table (Frame required_columns [])) Missing) in
  exists msg w1,
    load_and_validate_data csv_file w = (Raise (mk_exn ValueError msg), w1) /\
    fst (script w) = Exit 1.
Proof.
  intros w.
  destruct (empty_results_file w csv_file) as (msg & w1 & Hl & _ & Hm).
  - right. exists required_columns. reflexivity.
  - exists msg, w1. split; [exact Hl|].
    destruct (Hm eq_refl) as (_ & Hs & _). now rewrite Hs.
Defined.

(** ** Extraction from a table the validator accepted *)

Lemma first_time_present rows op :
  In (CStr op) (List.map fst rows) -> exists c, first_time rows op = Some c.
Proof.
  intros Hin. unfold first_time.
  destruct (List.find (fun row => cell_is op (fst row)) rows) as [row|] eqn:E.
  - simpl. eauto.
  - apply in_map_iff in Hin. destruct Hin as (row & Hrow & Hin).
    apply (find_none _ _ E) in Hin. rewrite Hrow in Hin. simpl in Hin.
    now rewrite String.eqb_refl in Hin.
Qed.

Lemma first_time_in rows op c :
  first_time rows op = Some c -> exists row, In row rows /\ snd row = c.
Proof.
  unfold first_time.
  destruct (List.find (fun row => cell_is op (fst row)) rows) as [row|] eqn:E;
    [|discriminate].
  intros [= <-]. apply find_some in E. exists row. tauto.
Qed.

(** The rows of an accepted table carry every required label. *)
Lemma accepted_rows path w df w' :
  load_and_validate_data path w = (Ok df, w') ->
  exists rows,
    timing_rows df = Ok rows /\
    Forall (fun op => exists c, first_time rows op = Some c) required_operations.
Proof.
  intros Hl. destruct (load_accepts _ _ _ _ Hl) as (operation & _ & Ho & Ht & Hall & _).
  destruct df as [cols rs].
  destruct (has_column_position _ _ (getitem_has_column _ _ _ Ho)) as [i Hi].
  destruct (has_column_position _ _ Ht) as [j Hj]. simpl in Hi, Hj.
  eexists. split; [apply (timing_rows_frame cols rs i j Hi Hj)|].
  apply List.Forall_forall. intros op Hop. apply first_time_present.
  rewrite List.map_map. cbn [fst].
  unfold getitem in Ho. simpl in Ho. rewrite Hi in Ho.
  injection Ho as <-. now apply Hall.
Qed.

(** With every label on some row, the loop ends with the times or with the
    error of a text that is no number. *)
Lemma times_of_outcome rows ops :
  Forall (fun op => exists c, first_time rows op = Some c) ops ->
  forall times,
    (exists ts, times_of rows ops times = Ok ts) \/
    (exists op s,
       In op ops /\ first_time rows op = Some (CStr s) /\
       float_of_str s = None /\
       times_of rows ops times = Raise (conversion_error s)).
Proof.
  induction 1 as [|op ops (c & Hc) _ IH]; intros times.
  - left. simpl. eauto.
  - simpl. rewrite Hc.
    assert (Hnext : forall t,
              (exists ts, times_of rows ops (times ++ [t]) = Ok ts) \/
              (exists op' s,
                 In op' (op :: ops) /\ first_time rows op' = Some (CStr s) /\
                 float_of_str s = None /\
                 times_of rows ops (times ++ [t]) = Raise (conversion_error s))).
    { intros t. destruct (IH (times ++ [t])) as [Hok | (op' & s & Hin & Hrest)];
        [left; exact Hok | right; exists op', s; split; [right; exact Hin | exact Hrest]]. }
    destruct c as [s|v]; simpl.
    + destruct (float_of_str s) as [v|] eqn:Es; simpl; [apply Hnext|].
      right. exists op, s. repeat split; auto with datatypes.
    + apply Hnext.
Qed.

Lemma times_of_numeric rows ops times :
  Forall (fun op => exists c, first_time rows op = Some c) ops ->
  numeric_times rows ->
  exists ts, times_of rows ops times = Ok ts.
Proof.
  intros Hfound Hnum.
  destruct (times_of_outcome rows ops Hfound times)
    as [Hok | (op & s & _ & Hc & _)]; [exact Hok|].
  destruct (first_time_in _ _ _ Hc) as (row & Hin & Hrow).
  unfold numeric_times in Hnum. rewrite List.Forall_forall in Hnum.
  destruct (Hnum row Hin) as [v Hv]. congruence.
Qed.

Lemma Forall_required_ed (P : string -> Prop) :
  Forall P required_operations -> Forall P operations_ed25519.
Proof.
  intros H. apply List.Forall_forall. intros op Hop.
  rewrite List.Forall_forall in H. apply H.
  unfold operations_ed25519 in Hop. unfold required_operations. simpl in *. tauto.
Qed.

Lemma Forall_required_secp (P : string -> Prop) :
  Forall P required_operations -> Forall P operations_secp256k1.
Proof.
  intros H. apply List.Forall_forall. intros op Hop.
  rewrite List.Forall_forall in H. apply H.
  unfold operations_secp256k1 in Hop. unfold required_operations. simpl in *. tauto.
Qed.

Lemma conversion_is_not_no_data s op : conversion_error s <> no_data_error op.
Proof.
  unfold conversion_error, no_data_error. intros H. discriminate H.
Qed.

(** What extraction can raise on the rows of an accepted table. *)
Lemma extract_outcome df rows :
  timing_rows df = Ok rows ->
  Forall (fun op => exists c, first_time rows op = Some c) required_operations ->
  (exists ed secp, extract_benchmark_times df = Ok (ed, secp)) \/
  (exists op s,
     In op required_operations /\ first_time rows op = Some (CStr s) /\
     float_of_str s = None /\
     extract_benchmark_times df = Raise (conversion_error s)).
Proof.
  intros Hrows Hall. rewrite (extract_rows df rows Hrows).
  destruct (times_of_outcome rows _ (Forall_required_ed _ Hall) [])
    as [(ed & ->) | (op & s & Hin & Hc & Hs & ->)]; cbn [and_then].
  - destruct (times_of_outcome rows _ (Forall_required_secp _ Hall) [])
      as [(secp & ->) | (op & s & Hin & Hc & Hs & ->)]; cbn [and_then].
    + left. eauto.
    + right. exists op, s. repeat split; auto.
      unfold required_operations. unfold operations_secp256k1 in Hin.
      simpl in *. tauto.
  - right. exists op, s. repeat split; auto.
    unfold required_operations. unfold operations_ed25519 in Hin.
    simpl in *. tauto.
Qed.

(** C8 (as amended): on a table the validator returned, extraction never
    raises the "No data found for operation" error; the only error it can
    raise is that of [float] on the text of the first row of a required
    label, when that text is no number; and when every time cell is a
    number it returns the two triples. *)
Theorem accepted_table_has_data (path : string) (w : world) (df : DataFrame)
    (w' : world) :
  load_and_validate_data path w = (Ok df, w') ->
  exists rows,
    timing_rows df = Ok rows /\
    (forall op, extract_benchmark_times df <> Raise (no_data_error op)) /\
    (forall e,
       extract_benchmark_times df = Raise e ->
       exists op s,
         In op required_operations /\ first_time rows op = Some (CStr s) /\
         float_of_str s = None /\ e = conversion_error s) /\
    (numeric_times rows ->
     exists ed secp, extract_benchmark_times df = Ok (ed, secp)).
Proof.
  intros Hl. destruct (accepted_rows _ _ _ _ Hl) as (rows & Hrows & Hall).
  exists rows. split; [exact Hrows|].
  pose proof (extract_outcome df rows Hrows Hall) as Hout.
  split; [|split].
  - intros op He.
    destruct Hout as [(ed & secp & Hok) | (op' & s & _ & _ & _ & Hr)].
    + congruence.
    + rewrite Hr in He. injection He as He.
      now apply (conversion_is_not_no_data s op).
  - intros e He.
    destruct Hout as [(ed & secp & Hok) | (op & s & Hin & Hc & Hs & Hr)].
    + congruence.
    + exists op, s. repeat split; auto. congruence.
  - intros Hnum. rewrite (extract_rows df rows Hrows).
    destruct (times_of_numeric rows operations_ed25519 []
                (Forall_required_ed _ Hall) Hnum) as [ed ->].
    destruct (times_of_numeric rows operations_secp256k1 []
                (Forall_required_secp _ Hall) Hnum) as [secp ->].
    cbn [and_then]. eauto.
Qed.

Lemma accepted_table_has_data_witness :
  let df := results_table example_entries in
  let w := fresh_world (two_files (Table df) Missing) in
  load_and_validate_data csv_file w = (Ok df, logged w [loaded_record df]) /\
  exists rows,
    timing_rows df = Ok rows /\
    (forall op, extract_benchmark_times df <> Raise (no_data_error op)) /\
    (forall e,
       extract_benchmark_times df = Raise e ->
       exists op s,
         In op required_operations /\ first_time rows op = Some (CStr s) /\
         float_of_str s = None /\ e = conversion_error s) /\
    (numeric_times rows ->
     exists ed secp, extract_benchmark_times df = Ok (ed, secp)).
Proof.
  intros df w.
  assert (Hl : load_and_validate_data csv_file w = (Ok df, logged w [loaded_record df]))
    by reflexivity.
  split; [exact Hl|].
  exact (accepted_table_has_data csv_file w df _ Hl).
Defined.

(** C8 as stated fails: the table whose first time reads "12.3us" has all
    six labels and is returned by the validator, and extraction raises the
    error of [float] on that text. *)
Lemma accepted_table_can_fail_extraction :
  let df := text_table entries_with_unit in
  let w := fresh_world (two_files (Table df) Missing) in
  load_and_validate_data csv_file w = (Ok df, logged w [loaded_record df]) /\
  extract_benchmark_times df = Raise (conversion_error "12.3us").
Proof. split; reflexivity. Qed.

(** ** The environment file cannot be used *)

Lemma get_times_loop_length df ops : forall times ts,
  get_times_loop df ops times = Ok ts ->
  List.length ts = List.length times + List.length ops.
Proof.
  induction ops as [|op ops IH]; intros times ts; simpl.
  - intros [= <-]. lia.
  - destruct (matching_rows df op) as [[|first rest]|]; cbn [and_then];
      try discriminate.
    destruct (py_float first) as [t|]; cbn [and_then]; [|discriminate].
    intros H. apply IH in H. rewrite H, length_app. simpl. lia.
Qed.

Lemma extract_triples df ed secp :
  extract_benchmark_times df = Ok (ed, secp) ->
  (exists k s v, ed = [k; s; v]) /\ (exists k s v, secp = [k; s; v]).
Proof.
  unfold extract_benchmark_times, get_times_for_curve.
  destruct (get_times_loop df operations_ed25519 []) as [ed'|] eqn:E1;
    cbn [and_then]; [|discriminate].
  destruct (get_times_loop df operations_secp256k1 []) as [secp'|] eqn:E2;
    cbn [and_then]; [|discriminate].
  intros [= <- <-].
  apply get_times_loop_length in E1, E2. simpl in E1, E2.
  split.
  - destruct ed' as [|k [|s' [|v [|]]]]; try discriminate. eauto.
  - destruct secp' as [|k [|s' [|v [|]]]]; try discriminate. eauto.
Qed.

(** Without a usable file the loader logs one warning and returns the
    empty dict. *)
Lemma load_environment_unusable w path :
  unusable (files w path) ->
  exists msg,
    load_environment_details path w = (Ok [], logged w [(WARNING, Text msg)]).
Proof.
  unfold unusable, load_environment_details, try_except, bind, read_csv.
  destruct (files w path) as [| |df|e]; intros Hu.
  - eexists. reflexivity.
  - eexists. reflexivity.
  - rewrite Hu. eexists. reflexivity.
  - unfold find, handles. cbn [catches existsb]. rewrite Hu.
    destruct (isinstance e FileNotFoundError); eexists; reflexivity.
Qed.

(** With two triples, no environment entry and a plotting library that
    raises nothing, the chart is saved and shown without annotation. *)
Lemma chart_without_environment w k1 s1 v1 k2 s2 v2 path :
  (forall call, plt_error w call = None) ->
  exists fig,
    create_benchmark_chart [k1; s1; v1] [k2; s2; v2] [] path w =
    (Ok tt,
     World (files w) (plt_error w)
       (log w ++ [(INFO, Text ("Chart saved to: " ++ path))])
       (saved w ++ [(path, fig)]) (shown w ++ [fig])) /\
    annotation fig = None /\
    List.map bar_height (bars1 fig) = [k1; s1; v1] /\
    List.map bar_height (bars2 fig) = [k2; s2; v2].
Proof.
  intros Hplt. eexists. split.
  - unfold create_benchmark_chart, bind, lift, plt, logger.
    change (arange (List.length ["Key Generation"; "Signing"; "Verification"]))
      with [0%float; 1%float; 2%float].
    cbn [ax_bar py_max List.length List.map combine Nat.eqb truthy fst snd].
    rewrite Hplt. cbn [files plt_error log saved shown].
    rewrite Hplt. cbn [files plt_error log saved shown].
    rewrite Hplt. reflexivity.
  - cbn [annotation bars1 bars2]. split; [reflexivity|]. split; reflexivity.
Qed.

(** C6: when the environment file is missing, empty, unreadable or without
    its two columns, the environment loader returns the empty dict and
    raises nothing; and with a results file that loads and whose times
    extract, and a plotting library that raises nothing, [main] returns
    True, the script exits with status 0, and the chart saved under the
    output path carries the extracted times and no annotation. *)
Theorem report_without_environment :
  (forall w path,
     unusable (files w path) ->
     exists msg,
       load_environment_details path w = (Ok [], logged w [(WARNING, Text msg)])) /\
  (forall w df w1 ed secp,
     load_and_validate_data csv_file w = (Ok df, w1) ->
     extract_benchmark_times df = Ok (ed, secp) ->
     unusable (files w env_file) ->
     (forall call, plt_error w call = None) ->
     exists fig w3,
       main w = (Ok true, w3) /\ script w = (Exit 0, w3) /\
       saved w3 = saved w ++ [(output_file, fig)] /\
       annotation fig = None /\
       List.map bar_height (bars1 fig) = ed /\
       List.map bar_height (bars2 fig) = secp).
Proof.
  split; [exact load_environment_unusable|].
  intros w df w1 ed secp Hl Hx Hu Hplt.
  destruct (load_accepts _ _ _ _ Hl) as (_ & _ & _ & _ & _ & ->).
  destruct (load_environment_unusable (logged w [loaded_record df]) env_file Hu)
    as [msg He].
  destruct (extract_triples _ _ _ Hx) as ((k1 & s1 & v1 & ->) & (k2 & s2 & v2 & ->)).
  destruct (chart_without_environment
              (logged (logged w [loaded_record df]) [(WARNING, Text msg)])
              k1 s1 v1 k2 s2 v2 output_file Hplt)
    as (fig & Hc & Hann & Hb1 & Hb2).
  destruct (main_success _ _ _ _ _ _ _ _ Hl He Hx Hc)
    as (Hm & Hs).
  eexists fig, _. split; [exact Hm|]. split; [exact Hs|].
  cbn [saved logged]. auto.
Qed.

Lemma report_without_environment_witness :
  let df := results_table example_entries in
  let w := fresh_world (two_files (Table df) Missing) in
  unusable (files w env_file) /\
  exists fig w3,
    main w = (Ok true, w3) /\ script w = (Exit 0, w3) /\
    saved w3 = saved w ++ [(output_file, fig)] /\
    annotation fig = None /\
    List.map bar_height (bars1 fig) = [12.3; 8.1; 15.4]%float /\
    List.map bar_height (bars2 fig) = [110.2; 95.7; 140.9]%float.
Proof.
  intros df w. split; [exact I|].
  apply (proj2 report_without_environment w df (logged w [loaded_record df])).
  - reflexivity.
  - reflexivity.
  - exact I.
  - reflexivity.
Defined.

End IllustrateFacts.

(** * Further properties of the report generator *)

Module ReportProperties.

Import Illustrate IllustrateFacts.

(** ** The validator *)

Lemma filter_all_false {A} (f : A -> bool) l :
  (forall x, In x l -> f x = false) -> List.filter f l = [].
Proof.
  induction l as [|y l IH]; simpl; [reflexivity|].
  intros H. rewrite (H y) by tauto. apply IH. intros x Hx. apply H. tauto.
Qed.

Lemma no_absent_operations operation :
  (forall op, In op required_operations -> In (CStr op) operation) ->
  absent_operations operation = [].
Proof.
  intros Hall. apply filter_all_false. intros op Hop.
  apply negb_false_iff, in_set_spec. now apply Hall.
Qed.

(** The validator returns a table exactly when the file holds one with the
    two required columns and a row for each of the six labels; it then
    returns that table as it is and logs the row count, nothing else. *)
Theorem validator_accepts_exactly (path : string) (w : world) (df : DataFrame)
    (w' : world) :
  load_and_validate_data path w = (Ok df, w') <->
  files w path = Table df /\
  has_column df time_column = true /\
  (exists operation,
     getitem df "Operation" = Ok operation /\
     forall op, In op required_operations -> In (CStr op) operation) /\
  w' = logged w [loaded_record df].
Proof.
  split.
  - intros Hl. destruct (load_accepts _ _ _ _ Hl) as (operation & Hf & Ho & Ht & Hall & Hw).
    repeat split; eauto.
  - intros (Hf & Ht & (operation & Ho & Hall) & ->).
    rewrite (load_table _ _ _ Hf).
    rewrite (has_required_columns df (getitem_has_column _ _ _ Ho) Ht).
    cbn [truthy]. rewrite Ho, (no_absent_operations _ Hall). reflexivity.
Qed.

Lemma validator_accepts_exactly_witness :
  let df := results_table example_entries in
  let w := fresh_world (two_files (Table df) Missing) in
  load_and_validate_data csv_file w = (Ok df, logged w [loaded_record df]).
Proof.
  intros df w.
  apply (proj2 (validator_accepts_exactly csv_file w df (logged w [loaded_record df]))).
  split; [reflexivity|]. split; [reflexivity|]. split; [|reflexivity].
  exists (List.map (fun entry => CStr (fst entry)) example_entries).
  split; [reflexivity|].
  intros op Hop. unfold required_operations in Hop. simpl in *.
  intuition (subst; auto 10).
Defined.

(** A table without one of the two required columns is refused with a
    ValueError that names every missing column; the rows are not looked at,
    and [main] reports the error, saves nothing and the script exits with
    status 1. *)
Theorem missing_column_is_malformed_input (w : world) (path : string)
    (df : DataFrame) (col : string) :
  files w path = Table df ->
  In col required_columns ->
  has_column df col = false ->
  exists listed,
    let msg := ("Missing required columns: " ++ listed)%string in
    load_and_validate_data path w =
      (Raise (mk_exn ValueError msg), logged w [loaded_record df]) /\
    (forall col', In col' required_columns -> has_column df col' = false ->
                  names listed col') /\
    (forall rows' w2,
       files w2 path = Table (Frame (columns df) rows') ->
       fst (load_and_validate_data path w2) = Raise (mk_exn ValueError msg)) /\
    (path = csv_file ->
     let w' := logged w [loaded_record df; error_record (mk_exn ValueError msg)] in
     main w = (Ok false, w') /\ script w = (Exit 1, w') /\ saved w' = saved w).
Proof.
  intros Hf Hcol Hno.
  set (missing := List.filter (fun c => negb (has_column df c)) required_columns).
  assert (Hin : In col missing).
  { apply filter_In. split; [exact Hcol | now rewrite Hno]. }
  exists (repr_list missing). cbv zeta.
  assert (Hl : load_and_validate_data path w =
               (Raise (mk_exn ValueError ("Missing required columns: " ++ repr_list missing)),
                logged w [loaded_record df])).
  { rewrite (load_table _ _ _ Hf). fold missing. now rewrite (truthy_in col). }
  split; [exact Hl|]. split; [|split].
  - intros col' Hcol' Hno'.
    apply (names_repr_list "" missing col').
    apply filter_In. split; [exact Hcol' | now rewrite Hno'].
  - intros rows' w2 Hf2. rewrite (load_table _ _ _ Hf2).
    change (List.filter (fun c => negb (has_column (Frame (columns df) rows') c))
              required_columns) with missing.
    now rewrite (truthy_in col).
  - intros ->.
    pose proof (main_known_error w _ _ Hl eq_refl) as Hm.
    rewrite logged_logged in Hm. cbn [app] in Hm.
    split; [exact Hm|]. split; [exact (script_of_main _ _ _ Hm) | reflexivity].
Qed.

Lemma missing_column_is_malformed_input_witness :
  let df := Frame ["Operation"; "Seconds"] [[CStr "Ed25519 KeyGen"; CNum 12.3]] in
  let w := fresh_world (two_files (Table df) Missing) in
  exists listed,
    load_and_validate_data csv_file w =
      (Raise (mk_exn ValueError ("Missing required columns: " ++ listed)),
       logged w [loaded_record df]) /\
    names listed time_column /\
    fst (script w) = Exit 1.
Proof.
  intros df w.
  destruct (missing_column_is_malformed_input w csv_file df time_column)
    as (listed & Hl & Hn & _ & Hm).
  - reflexivity.
  - simpl. tauto.
  - reflexivity.
  - exists listed. split; [exact Hl|]. split.
    + apply Hn; [simpl; tauto | reflexivity].
    + destruct (Hm eq_refl) as (_ & Hs & _). now rewrite Hs.
Defined.

(** ** Errors of the readers and the top level *)

Lemma not_value_error_not_empty_data e :
  isinstance e ValueError = false -> isinstance e EmptyDataError = false.
Proof. destruct e as [[] msg]; cbv; congruence. Qed.

Lemma load_reader_error w path e :
  files w path = Unreadable e ->
  load_and_validate_data path w =
  (Raise (if isinstance e FileNotFoundError
          then mk_exn FileNotFoundError ("Benchmark results file not found: " ++ path)
          else if isinstance e EmptyDataError
               then mk_exn ValueError "CSV file is empty"
               else e), w).
Proof.
  intros Hf. unfold load_and_validate_data, try_except, bind, read_csv.
  rewrite Hf. unfold find, handles. cbn [catches existsb handle].
  rewrite !orb_false_r.
  destruct (isinstance e FileNotFoundError); [reflexivity|].
  destruct (isinstance e EmptyDataError); reflexivity.
Qed.

(** What the caller of [load_and_validate_data] sees when the reader itself
    fails: a missing-file error of the reader is replaced by one that names
    the path, an empty-data error by the ValueError "CSV file is empty",
    and every other error is passed on as it is, with nothing logged. *)
Theorem reader_error_translation (w : world) (path : string) (e : exn) :
  files w path = Unreadable e ->
  load_and_validate_data path w =
  (Raise (if isinstance e FileNotFoundError
          then mk_exn FileNotFoundError ("Benchmark results file not found: " ++ path)
          else if isinstance e EmptyDataError
               then mk_exn ValueError "CSV file is empty"
               else e), w).
Proof. exact (load_reader_error w path e). Qed.

Lemma reader_error_translation_witness :
  let e := mk_exn ParserError "Error tokenizing data" in
  let w := fresh_world (two_files (Unreadable e) Missing) in
  load_and_validate_data csv_file w = (Raise e, w).
Proof.
  intros e w. exact (reader_error_translation w csv_file e eq_refl).
Defined.

(** An error of the results reader that is an Exception but neither a
    ValueError nor a FileNotFoundError (a PermissionError, say) reaches
    [main] unchanged and is reported as unexpected: [main] returns False,
    nothing is saved and the script exits with status 1. *)
Theorem unexpected_reader_error (w : world) (e : exn) :
  files w csv_file = Unreadable e ->
  isinstance e Exception = true ->
  isinstance e FileNotFoundError = false ->
  isinstance e ValueError = false ->
  let w' := logged w [(ERROR, Text ("Unexpected error: " ++ exn_msg e))] in
  load_and_validate_data csv_file w = (Raise e, w) /\
  main w = (Ok false, w') /\ script w = (Exit 1, w') /\ saved w' = saved w.
Proof.
  intros Hf He Hfnf Hval. cbv zeta.
  assert (Hl : load_and_validate_data csv_file w = (Raise e, w)).
  { rewrite (load_reader_error _ _ _ Hf), Hfnf.
    now rewrite (not_value_error_not_empty_data _ Hval). }
  assert (Hm : main w =
               (Ok false, logged w [(ERROR, Text ("Unexpected error: " ++ exn_msg e))])).
  { unfold main, try_except, bind. rewrite Hl.
    unfold find, handles. cbn [catches existsb].
    rewrite Hfnf, Hval, (not_value_error_not_empty_data _ Hval), He. reflexivity. }
  split; [exact Hl|]. split; [exact Hm|].
  split; [exact (script_of_main _ _ _ Hm) | reflexivity].
Qed.

Lemma unexpected_reader_error_witness :
  let e := mk_exn PermissionError "[Errno 13] Permission denied" in
  let w := fresh_world (two_files (Unreadable e) Missing) in
  main w =
    (Ok false,
     logged w [(ERROR, Text "Unexpected error: [Errno 13] Permission denied")]) /\
  fst (script w) = Exit 1.
Proof.
  intros e w.
  destruct (unexpected_reader_error w e eq_refl eq_refl eq_refl eq_refl)
    as (_ & Hm & Hs & _).
  split; [exact Hm | now rewrite Hs].
Defined.

(** No Exception leaves [main]: it returns True, or it returns False after
    logging an error as its last record, or what it raises is no Exception
    (an interrupt, for one). *)
Theorem main_lets_no_exception_out (w : world) :
  match main w with
  | (Ok true, _) => True
  | (Ok false, w') =>
      exists before text, log w' = before ++ [(ERROR, Text text)]
  | (Raise e, _) => isinstance e Exception = false
  end.
Proof.
  unfold main, try_except.
  match goal with |- context [match ?body w with _ => _ end] =>
    destruct (body w) as [[[|]|e] w0] eqn:Hbody
  end.
  - exact I.
  - unfold bind in Hbody.
    repeat match type of Hbody with
           | context [match ?c with _ => _ end] => destruct c as [[?|?] ?]
           end; discriminate Hbody.
  - unfold find, handles. cbn [catches existsb handle].
    destruct (isinstance e FileNotFoundError || (isinstance e ValueError ||
                (isinstance e EmptyDataError || false))).
    + unfold bind, logger, ret. cbn [handle log]. eauto.
    + destruct (isinstance e Exception || false) eqn:He.
      * unfold bind, logger, ret. cbn [handle log]. eauto.
      * now rewrite orb_false_r in He.
Qed.

(** The environment loader lets no Exception out either: it returns a dict,
    or what it raises is the reader's own error and no Exception. *)
Theorem environment_loader_lets_no_exception_out (w : world) (path : string) :
  match load_environment_details path w with
  | (Ok _, _) => True
  | (Raise e, w') =>
      isinstance e Exception = false /\ files w path = Unreadable e /\ w' = w
  end.
Proof.
  unfold load_environment_details, try_except, bind, read_csv.
  destruct (files w path) as [| |df|e]; try exact I.
  - destruct (forallb (has_column df) ["Property"; "Value"]) eqn:Hc;
      cbn [negb]; [|exact I].
    cbn [forallb] in Hc. apply andb_prop in Hc as [Hp Hv].
    apply andb_prop in Hv as [Hv _].
    destruct (has_column_position _ _ Hp) as [i Hi].
    destruct (has_column_position _ _ Hv) as [j Hj].
    unfold lift, getitem. rewrite Hi, Hj. exact I.
  - unfold find, handles. cbn [catches existsb handle].
    rewrite !orb_false_r.
    destruct (isinstance e FileNotFoundError); [exact I|].
    destruct (isinstance e Exception) eqn:He; [exact I|]. auto.
Qed.

(** ** The environment dict *)

Lemma cell_eqb_label k name : cell_eqb k (CStr name) = cell_is name k.
Proof. destruct k; reflexivity. Qed.

Lemma cell_eqb_same_label k' k name :
  cell_eqb k' k = true -> cell_is name k' = cell_is name k.
Proof.
  destruct k' as [s'|v'], k as [s|v]; simpl; try discriminate; try reflexivity.
  intros H. apply String.eqb_eq in H. now subst.
Qed.

Lemma cell_is_both_eqb k' k name :
  cell_is name k' = true -> cell_is name k = true -> cell_eqb k' k = true.
Proof.
  destruct k' as [s'|v'], k as [s|v]; simpl; try discriminate.
  intros H1 H2. apply String.eqb_eq in H1, H2. subst. apply String.eqb_refl.
Qed.

(** Reading a name after an assignment. *)
Lemma dict_get_set d k v name :
  dict_get (dict_set d k v) (CStr name) =
  if cell_is name k then Some v else dict_get d (CStr name).
Proof.
  unfold dict_get. induction d as [|[k' v'] d IH]; simpl.
  - rewrite cell_eqb_label. now destruct (cell_is name k).
  - destruct (cell_eqb k' k) eqn:E; simpl; rewrite cell_eqb_label.
    + rewrite (cell_eqb_same_label _ _ name E).
      now destruct (cell_is name k).
    + destruct (cell_is name k') eqn:E'; simpl.
      * destruct (cell_is name k) eqn:E''; [|reflexivity].
        rewrite (cell_is_both_eqb _ _ _ E' E'') in E. discriminate.
      * exact IH.
Qed.

Lemma dict_get_fold pairs : forall d name,
  dict_get (fold_left (fun d kv => dict_set d (fst kv) (snd kv)) pairs d) (CStr name) =
  match List.find (fun kv => cell_is name (fst kv)) (rev pairs) with
  | Some kv => Some (snd kv)
  | None => dict_get d (CStr name)
  end.
Proof.
  induction pairs as [|[k v] pairs IH]; intros d name; simpl; [reflexivity|].
  rewrite IH, find_app_split.
  destruct (List.find _ (rev pairs)); [reflexivity|]. simpl.
  rewrite dict_get_set. now destruct (cell_is name k).
Qed.

(** From a table with the two columns the environment loader returns the
    dict of its (Property, Value) rows and logs its keys; where a property
    name stands on several rows, the dict holds the value of the last of
    them. *)
Theorem environment_details_of_table (w : world) (path : string)
    (df : DataFrame) (property value : list cell) :
  files w path = Table df ->
  getitem df "Property" = Ok property ->
  getitem df "Value" = Ok value ->
  let details := dict (combine property value) in
  load_environment_details path w =
    (Ok details, logged w [(INFO, LoadedEnvironmentDetails (List.map fst details))]) /\
  forall name,
    dict_get details (CStr name) =
    option_map snd
      (List.find (fun kv => cell_is name (fst kv)) (rev (combine property value))).
Proof.
  intros Hf Hp Hv details. split.
  - unfold load_environment_details, try_except, bind, read_csv. rewrite Hf.
    cbn [forallb].
    rewrite (getitem_has_column _ _ _ Hp), (getitem_has_column _ _ _ Hv).
    cbn [andb negb]. unfold lift. rewrite Hp, Hv. reflexivity.
  - intros name. unfold details, dict. rewrite dict_get_fold.
    now destruct (List.find _ (rev (combine property value))).
Qed.

Lemma environment_details_of_table_witness :
  let df := Frame ["Property"; "Value"]
              [[CStr "Platform"; CStr "Linux"]; [CStr "CPU_count"; CNum 8];
               [CStr "Platform"; CStr "Darwin"]] in
  let w := fresh_world (two_files Missing (Table df)) in
  exists details record,
    load_environment_details env_file w = (Ok details, logged w [record]) /\
    List.map fst details = [CStr "Platform"; CStr "CPU_count"] /\
    dict_get details (CStr "Platform") = Some (CStr "Darwin").
Proof.
  intros df w.
  destruct (environment_details_of_table w env_file df
              [CStr "Platform"; CStr "CPU_count"; CStr "Platform"]
              [CStr "Linux"; CNum 8; CStr "Darwin"] eq_refl eq_refl eq_refl)
    as (Hl & Hg).
  eexists _, _. split; [exact Hl|]. split; [reflexivity|].
  rewrite Hg. reflexivity.
Defined.

(** ** Extraction from a table nobody validated *)

Lemma first_time_absent rows op :
  ~ In (CStr op) (List.map fst rows) -> first_time rows op = None.
Proof.
  intros Hno. unfold first_time.
  destruct (List.find (fun row => cell_is op (fst row)) rows) as [row|] eqn:E;
    [|reflexivity].
  apply find_some in E. destruct E as [Hin Hc]. exfalso. apply Hno.
  destruct row as [[s|v] t]; simpl in Hc; [|discriminate].
  apply String.eqb_eq in Hc. subst. now apply (in_map fst) in Hin.
Qed.

Lemma first_time_number rows op :
  numeric_times rows ->
  In (CStr op) (List.map fst rows) ->
  exists v, first_time rows op = Some (CNum v).
Proof.
  intros Hnum Hin. destruct (first_time_present rows op Hin) as [c Hc].
  destruct (first_time_in _ _ _ Hc) as (row & Hrow & <-).
  unfold numeric_times in Hnum. rewrite List.Forall_forall in Hnum.
  destruct (Hnum row Hrow) as [v Hv]. exists v. now rewrite Hc, Hv.
Qed.

(** The loop stops at the first label without a row. *)
Lemma times_of_missing rows found missing rest :
  numeric_times rows ->
  (forall op, In op found -> In (CStr op) (List.map fst rows)) ->
  ~ In (CStr missing) (List.map fst rows) ->
  forall times,
    times_of rows (found ++ missing :: rest) times = Raise (no_data_error missing).
Proof.
  intros Hnum Hfound Hno.
  induction found as [|op found IH]; intros times; simpl.
  - now rewrite (first_time_absent _ _ Hno).
  - destruct (first_time_number rows op Hnum) as [v ->]; [apply Hfound; now left|].
    simpl. apply IH. intros op' Hop'. apply Hfound. now right.
Qed.

Lemma times_of_found rows ops :
  numeric_times rows ->
  (forall op, In op ops -> In (CStr op) (List.map fst rows)) ->
  forall times, exists ts, times_of rows ops times = Ok ts.
Proof.
  intros Hnum Hfound times. apply times_of_numeric; [|exact Hnum].
  apply List.Forall_forall. intros op Hop.
  destruct (first_time_number rows op Hnum (Hfound op Hop)) as [v Hv]. eauto.
Qed.

(** On a table of numbers that lacks a label, extraction raises the
    "No data found for operation" ValueError of the first label without a
    row, in the order Ed25519 KeyGen, Signing, Verification, then
    secp256k1 KeyGen, Signing, Verification. *)
Theorem extraction_reports_first_missing_label (df : DataFrame)
    (rows : list (cell * cell)) (found : list string) (missing : string)
    (rest : list string) :
  timing_rows df = Ok rows ->
  numeric_times rows ->
  required_operations = found ++ missing :: rest ->
  (forall op, In op found -> In (CStr op) (List.map fst rows)) ->
  ~ In (CStr missing) (List.map fst rows) ->
  extract_benchmark_times df = Raise (no_data_error missing).
Proof.
  intros Hrows Hnum Hsplit Hfound Hno.
  rewrite (extract_rows df rows Hrows).
  assert (Hed : forall f r, operations_ed25519 = f ++ missing :: r ->
                  (forall op, In op f -> In op found) ->
                  and_then (times_of rows operations_ed25519 []) (fun ed =>
                  and_then (times_of rows operations_secp256k1 []) (fun secp =>
                  Ok (ed, secp))) = Raise (no_data_error missing)).
  { intros f r -> Hsub.
    rewrite (times_of_missing rows f missing r Hnum); auto. }
  assert (Hsecp : forall f r, operations_secp256k1 = f ++ missing :: r ->
                  (forall op, In op operations_ed25519 -> In op found) ->
                  (forall op, In op f -> In op found) ->
                  and_then (times_of rows operations_ed25519 []) (fun ed =>
                  and_then (times_of rows operations_secp256k1 []) (fun secp =>
                  Ok (ed, secp))) = Raise (no_data_error missing)).
  { intros f r -> Hall Hsub.
    destruct (times_of_found rows operations_ed25519 Hnum
                (fun op Hop => Hfound op (Hall op Hop)) []) as [ed ->].
    cbn [and_then].
    rewrite (times_of_missing rows f missing r Hnum); auto. }
  unfold required_operations in Hsplit.
  destruct found as [|a1 [|a2 [|a3 [|a4 [|a5 [|a6 found]]]]]];
    simpl in Hsplit; inversion Hsplit; subst; clear Hsplit.
  - apply (Hed [] _ eq_refl). intros op [].
  - apply (Hed ["Ed25519 KeyGen"] _ eq_refl). simpl. tauto.
  - apply (Hed ["Ed25519 KeyGen"; "Ed25519 Signing"] _ eq_refl). simpl. tauto.
  - apply (Hsecp [] _ eq_refl); simpl; tauto.
  - apply (Hsecp ["secp256k1 KeyGen"] _ eq_refl); simpl; tauto.
  - apply (Hsecp ["secp256k1 KeyGen"; "secp256k1 Signing"] _ eq_refl); simpl; tauto.
  - destruct found; discriminate.
Qed.

Lemma extraction_reports_first_missing_label_witness :
  extract_benchmark_times (results_table five_entries) =
  Raise (no_data_error "secp256k1 Verification").
Proof.
  apply (extraction_reports_first_missing_label (results_table five_entries)
           (List.map timing_row five_entries)
           (List.map fst five_entries) "secp256k1 Verification" []).
  - reflexivity.
  - repeat constructor; eexists; reflexivity.
  - reflexivity.
  - intros op Hop. simpl in *. intuition (subst; auto).
  - simpl. intuition discriminate.
Defined.

(** Without its Operation column, or with it and without the time column,
    a table makes extraction raise the KeyError of that column, whatever
    its rows hold. *)
Theorem extraction_needs_both_columns (df : DataFrame) :
  (has_column df "Operation" = false ->
   extract_benchmark_times df = Raise (mk_exn KeyError (repr_str "Operation"))) /\
  (has_column df "Operation" = true ->
   has_column df time_column = false ->
   extract_benchmark_times df = Raise (mk_exn KeyError (repr_str time_column))).
Proof.
  assert (Hnone : forall col, has_column df col = false ->
                              position col (columns df) = None).
  { intros col H. destruct (position col (columns df)) eqn:E; [|reflexivity].
    apply position_has_column in E. congruence. }
  split.
  - intros Ho.
    unfold extract_benchmark_times, get_times_for_curve, operations_ed25519.
    cbn [get_times_loop]. unfold matching_rows, getitem.
    now rewrite (Hnone _ Ho).
  - intros Ho Ht. destruct (has_column_position _ _ Ho) as [i Hi].
    unfold extract_benchmark_times, get_times_for_curve, operations_ed25519.
    cbn [get_times_loop]. unfold matching_rows, getitem.
    now rewrite Hi, (Hnone _ Ht).
Qed.

Lemma extraction_needs_both_columns_witness :
  extract_benchmark_times (Frame ["Property"; "Value"] []) =
  Raise (mk_exn KeyError (repr_str "Operation")).
Proof.
  exact (proj1 (extraction_needs_both_columns (Frame ["Property"; "Value"] []))
           eq_refl).
Defined.

(** ** The chart *)

(** Drawing two triples: one figure is built, and the three calls into the
    plotting library are made in turn, the first that raises ending the
    function. *)
Lemma chart_of_triples w k1 s1 v1 k2 s2 v2 env path :
  exists fig,
    annotation fig = (if truthy env then Some env else None) /\
    List.map bar_height (bars1 fig) = [k1; s1; v1] /\
    List.map bar_height (bars2 fig) = [k2; s2; v2] /\
    create_benchmark_chart [k1; s1; v1] [k2; s2; v2] env path w =
    match plt_error w (Draw fig) with
    | Some e => (Raise e, w)
    | None =>
        match plt_error w (Savefig path fig) with
        | Some e => (Raise e, w)
        | None =>
            let w1 :=
              World (files w) (plt_error w)
                (log w ++ [(INFO, Text ("Chart saved to: " ++ path))])
                (saved w ++ [(path, fig)]) (shown w) in
            match plt_error w (Show fig) with
            | Some e => (Raise e, w1)
            | None =>
                (Ok tt,
                 World (files w) (plt_error w) (log w1) (saved w1) (shown w ++ [fig]))
            end
        end
    end.
Proof.
  eexists. split; [|split; [|split]]; cycle 3.
  - unfold create_benchmark_chart, bind, lift, plt, logger.
    change (arange (List.length ["Key Generation"; "Signing"; "Verification"]))
      with [0%float; 1%float; 2%float].
    cbn [ax_bar py_max List.length List.map combine Nat.eqb fst snd].
    match goal with
    | |- ?lhs = match plt_error w (Draw ?g) with _ => _ end =>
        match lhs with
        | context [plt_error w (Draw ?f)] => unify g f; set (fig := f)
        end
    end.
    destruct (plt_error w (Draw fig)); [reflexivity|].
    destruct (plt_error w (Savefig path fig)); [reflexivity|].
    cbn [files plt_error log saved shown].
    destruct (plt_error w (Show fig)); reflexivity.
  - reflexivity.
  - reflexivity.
  - reflexivity.
Qed.

Lemma dict_set_truthy d k v : truthy (dict_set d k v) = true.
Proof. destruct d as [|[k' v'] d]; simpl; [reflexivity|]. now destruct (cell_eqb k' k). Qed.

Lemma dict_fold_truthy pairs : forall d,
  truthy d = true ->
  truthy (fold_left (fun d kv => dict_set d (fst kv) (snd kv)) pairs d) = true.
Proof.
  induction pairs as [|kv pairs IH]; intros d Hd; simpl; [exact Hd|].
  apply IH, dict_set_truthy.
Qed.

Lemma dict_truthy pairs : pairs <> [] -> truthy (dict pairs) = true.
Proof.
  unfold dict. destruct pairs as [|kv pairs]; [congruence|]. intros _.
  cbn [fold_left]. apply dict_fold_truthy, dict_set_truthy.
Qed.

Lemma getitem_rows df col cells :
  getitem df col = Ok cells ->
  exists i, cells = List.map (fun row => nth i row (CNum nan)) (rows df).
Proof.
  unfold getitem. destruct (position col (columns df)) as [i|]; [|discriminate].
  intros [= <-]. eauto.
Qed.

(** What the environment loader leaves of the world when it returns. *)
Lemma load_environment_logs path w d w' :
  load_environment_details path w = (Ok d, w') ->
  exists record, w' = logged w [record].
Proof.
  unfold load_environment_details, try_except, bind, read_csv.
  destruct (files w path) as [| |df|e].
  - intros [= _ <-]. eexists. reflexivity.
  - intros [= _ <-]. eexists. reflexivity.
  - destruct (forallb (has_column df) ["Property"; "Value"]) eqn:Hc; cbn [negb].
    + cbn [forallb] in Hc. apply andb_prop in Hc as [Hp Hv].
      apply andb_prop in Hv as [Hv _].
      destruct (has_column_position _ _ Hp) as [i Hi].
      destruct (has_column_position _ _ Hv) as [j Hj].
      unfold lift, getitem. rewrite Hi, Hj.
      intros [= _ <-]. eexists. reflexivity.
    + intros [= _ <-]. eexists. reflexivity.
  - unfold find, handles. cbn [catches existsb handle].
    rewrite !orb_false_r.
    destruct (isinstance e FileNotFoundError).
    + intros [= _ <-]. eexists. reflexivity.
    + destruct (isinstance e Exception); [|discriminate].
      intros [= _ <-]. eexists. reflexivity.
Qed.

(** With an environment table of at least one row the saved chart carries
    the environment block: its annotation is the dict the loader
    returned. *)
Theorem chart_with_environment (w : world) (df : DataFrame) (w1 : world)
    (ed secp : list float) (environment : DataFrame) (property value : list cell) :
  load_and_validate_data csv_file w = (Ok df, w1) ->
  extract_benchmark_times df = Ok (ed, secp) ->
  files w env_file = Table environment ->
  getitem environment "Property" = Ok property ->
  getitem environment "Value" = Ok value ->
  rows environment <> [] ->
  (forall call, plt_error w call = None) ->
  exists fig w3,
    main w = (Ok true, w3) /\
    saved w3 = saved w ++ [(output_file, fig)] /\
    shown w3 = shown w ++ [fig] /\
    annotation fig = Some (dict (combine property value)) /\
    List.map bar_height (bars1 fig) = ed /\
    List.map bar_height (bars2 fig) = secp.
Proof.
  intros Hl Hx Hf Hp Hv Hrows Hplt.
  destruct (load_accepts _ _ _ _ Hl) as (_ & _ & _ & _ & _ & ->).
  assert (Hne : combine property value <> []).
  { destruct (getitem_rows _ _ _ Hp) as [i ->].
    destruct (getitem_rows _ _ _ Hv) as [j ->].
    destruct (rows environment); [congruence | discriminate]. }
  assert (He : load_environment_details env_file (logged w [loaded_record df]) =
               (Ok (dict (combine property value)),
                logged (logged w [loaded_record df])
                  [(INFO, LoadedEnvironmentDetails
                            (List.map fst (dict (combine property value))))])).
  { unfold load_environment_details, try_except, bind, read_csv.
    cbn [files logged]. rewrite Hf. cbn [forallb].
    rewrite (getitem_has_column _ _ _ Hp), (getitem_has_column _ _ _ Hv).
    cbn [andb negb]. unfold lift. rewrite Hp, Hv. reflexivity. }
  destruct (extract_triples _ _ _ Hx) as ((k1 & s1 & v1 & ->) & (k2 & s2 & v2 & ->)).
  match type of He with _ = (_, ?w2) =>
    destruct (chart_of_triples w2 k1 s1 v1 k2 s2 v2
                (dict (combine property value)) output_file)
      as (fig & Hann & Hb1 & Hb2 & Hc)
  end.
  cbn [plt_error logged] in Hc. rewrite !Hplt in Hc.
  rewrite (dict_truthy _ Hne) in Hann.
  destruct (main_success _ _ _ _ _ _ _ _ Hl He Hx Hc) as (Hm & _).
  eexists fig, _. split; [exact Hm|]. cbn [saved shown logged]. auto.
Qed.

Lemma chart_with_environment_witness :
  let df := results_table example_entries in
  let environment := Frame ["Property"; "Value"] [[CStr "Platform"; CStr "Linux"]] in
  let w := fresh_world (two_files (Table df) (Table environment)) in
  exists fig w3,
    main w = (Ok true, w3) /\
    saved w3 = saved w ++ [(output_file, fig)] /\
    annotation fig = Some [(CStr "Platform", CStr "Linux")].
Proof.
  intros df environment w.
  destruct (chart_with_environment w df (logged w [loaded_record df])
              [12.3; 8.1; 15.4]%float [110.2; 95.7; 140.9]%float environment
              [CStr "Platform"] [CStr "Linux"])
    as (fig & w3 & Hm & Hs & _ & Ha & _); try reflexivity.
  - discriminate.
  - exists fig, w3. auto.
Defined.

(** ** What a run leaves behind *)

(** Loading the results file changes nothing but the log. *)
Lemma load_frame path w r w' :
  load_and_validate_data path w = (r, w') ->
  exists records, w' = logged w records.
Proof.
  destruct (files w path) as [| |df|e] eqn:Hf.
  - rewrite (load_missing _ _ Hf). intros [= _ <-]. exists [].
    unfold logged. rewrite app_nil_r. now destruct w.
  - rewrite (load_zero_bytes _ _ Hf). intros [= _ <-]. exists [].
    unfold logged. rewrite app_nil_r. now destruct w.
  - rewrite (load_table _ _ _ Hf). intros [= _ <-]. eauto.
  - destruct (load_unreadable _ _ _ Hf) as [e' ->]. intros [= _ <-]. exists [].
    unfold logged. rewrite app_nil_r. now destruct w.
Qed.

Lemma load_environment_frame path w r w' :
  load_environment_details path w = (r, w') ->
  exists records, w' = logged w records.
Proof.
  destruct r as [d|e]; intros H.
  - destruct (load_environment_logs _ _ _ _ H) as [record ->]. eauto.
  - exists []. unfold logged. rewrite app_nil_r.
    revert H. unfold load_environment_details, try_except, bind, read_csv.
    destruct (files w path) as [| |df|e0]; try discriminate.
    + destruct (forallb (has_column df) ["Property"; "Value"]) eqn:Hc;
        cbn [negb]; [|discriminate].
      cbn [forallb] in Hc. apply andb_prop in Hc as [Hp Hv].
      apply andb_prop in Hv as [Hv _].
      destruct (has_column_position _ _ Hp) as [i Hi].
      destruct (has_column_position _ _ Hv) as [j Hj].
      unfold lift, getitem. rewrite Hi, Hj. discriminate.
    + unfold find, handles. cbn [catches existsb handle].
      rewrite !orb_false_r.
      destruct (isinstance e0 FileNotFoundError); [discriminate|].
      destruct (isinstance e0 Exception); [discriminate|].
      intros [= _ <-]. now destruct w.
Qed.

Ltac run_top_handlers :=
  unfold find, handles; cbn [catches existsb handle];
  repeat match goal with
         | |- context [if ?c then _ else _] => destruct c
         end;
  unfold bind, logger, ret; cbn [files saved shown log logged].

(** Whatever the files hold and whatever the plotting library does, [main]
    saves at most one chart, under the output path and after everything
    saved before; when it returns True it has saved and shown exactly
    one. *)
Theorem main_saves_at_most_one_chart (w : world) :
  match main w with
  | (r, w') =>
      (saved w' = saved w \/ exists fig, saved w' = saved w ++ [(output_file, fig)]) /\
      (r = Ok true ->
       exists fig,
         saved w' = saved w ++ [(output_file, fig)] /\
         shown w' = shown w ++ [fig])
  end.
Proof.
  unfold main, try_except, bind.
  destruct (load_and_validate_data csv_file w) as [[df|e] w1] eqn:Hl;
    destruct (load_frame _ _ _ _ Hl) as [r1 ->].
  2:{ run_top_handlers; (split; [now left | discriminate]). }
  destruct (load_environment_details env_file (logged w r1)) as [[env|e] w2] eqn:He;
    destruct (load_environment_frame _ _ _ _ He) as [r2 ->].
  2:{ run_top_handlers; (split; [now left | discriminate]). }
  unfold lift.
  destruct (extract_benchmark_times df) as [[ed secp]|e] eqn:Hx.
  2:{ run_top_handlers; (split; [now left | discriminate]). }
  destruct (extract_triples _ _ _ Hx) as ((k1 & s1 & v1 & ->) & (k2 & s2 & v2 & ->)).
  cbn [fst snd].
  destruct (chart_of_triples (logged (logged w r1) r2) k1 s1 v1 k2 s2 v2 env output_file)
    as (fig & _ & _ & _ & ->).
  destruct (plt_error _ (Draw fig)).
  { run_top_handlers; (split; [now left | discriminate]). }
  destruct (plt_error _ (Savefig output_file fig)).
  { run_top_handlers; (split; [now left | discriminate]). }
  cbv zeta. destruct (plt_error _ (Show fig)).
  { run_top_handlers; (split; [right; eauto | discriminate]). }
  unfold ret. cbn [files saved shown log logged]. split; [right; eauto | eauto].
Qed.

Lemma main_chart_error w df w1 env w2 ed secp e w3 :
  load_and_validate_data csv_file w = (Ok df, w1) ->
  load_environment_details env_file w1 = (Ok env, w2) ->
  extract_benchmark_times df = Ok (ed, secp) ->
  create_benchmark_chart ed secp env output_file w2 = (Raise e, w3) ->
  isinstance e Exception = true ->
  exists text, main w = (Ok false, logged w3 [(ERROR, Text text)]).
Proof.
  intros Hl He Hx Hc Hexn.
  unfold main, try_except, bind. rewrite Hl, He. unfold lift. rewrite Hx.
  cbn [fst snd]. rewrite Hc.
  unfold find, handles. cbn [catches existsb handle]. rewrite Hexn.
  destruct (isinstance e FileNotFoundError || _); eexists; reflexivity.
Qed.

(** When showing the figure fails after it was saved, the chart stays
    saved and the save is logged, yet [main] logs an error and returns
    False, and the script exits with status 1. *)
Theorem show_failure_after_saving (w : world) (df : DataFrame) (w1 : world)
    (env : list (cell * cell)) (w2 : world) (ed secp : list float) (e : exn) :
  load_and_validate_data csv_file w = (Ok df, w1) ->
  load_environment_details env_file w1 = (Ok env, w2) ->
  extract_benchmark_times df = Ok (ed, secp) ->
  (forall fig, plt_error w (Draw fig) = None) ->
  (forall fig, plt_error w (Savefig output_file fig) = None) ->
  (forall fig, plt_error w (Show fig) = Some e) ->
  isinstance e Exception = true ->
  exists fig w3 text,
    main w = (Ok false, w3) /\ script w = (Exit 1, w3) /\
    saved w3 = saved w ++ [(output_file, fig)] /\
    shown w3 = shown w /\
    log w3 = log w2 ++ [(INFO, Text ("Chart saved to: " ++ output_file));
                        (ERROR, Text text)].
Proof.
  intros Hl He Hx Hdraw Hsave Hshow Hexn.
  destruct (load_frame _ _ _ _ Hl) as [r1 ->].
  destruct (load_environment_frame _ _ _ _ He) as [r2 ->].
  destruct (extract_triples _ _ _ Hx) as ((k1 & s1 & v1 & ->) & (k2 & s2 & v2 & ->)).
  destruct (chart_of_triples (logged (logged w r1) r2) k1 s1 v1 k2 s2 v2 env output_file)
    as (fig & _ & _ & _ & Hc).
  cbn [plt_error logged] in Hc. rewrite Hdraw, Hsave, Hshow in Hc. cbv zeta in Hc.
  destruct (main_chart_error _ _ _ _ _ _ _ _ _ Hl He Hx Hc Hexn) as [text Hm].
  eexists fig, _, text. split; [exact Hm|]. split; [exact (script_of_main _ _ _ Hm)|].
  cbn [saved shown log logged files]. rewrite <- !app_assoc. auto.
Qed.

Lemma show_failure_after_saving_witness :
  let df := results_table example_entries in
  let e := mk_exn RuntimeError "no display" in
  let w := World (two_files (Table df) Missing)
             (fun call => match call with Show _ => Some e | _ => None end)
             [] [] [] in
  exists fig w3,
    main w = (Ok false, w3) /\ fst (script w) = Exit 1 /\
    saved w3 = [(output_file, fig)] /\ shown w3 = [].
Proof.
  intros df e w.
  destruct (show_failure_after_saving w df (logged w [loaded_record df]) []
              (logged (logged w [loaded_record df])
                 [(WARNING, Text ("Environment details file not found: " ++ env_file))])
              [12.3; 8.1; 15.4]%float [110.2; 95.7; 140.9]%float e)
    as (fig & w3 & text & Hm & Hs & Hsaved & Hshown & _); try reflexivity.
  exists fig, w3. rewrite Hs. auto.
Defined.

End ReportProperties.

(** * Further properties of the benchmark runner *)

Module RunnerProperties.

Import Benchmark BenchmarkFacts.

(** ** What the clock readings enclose *)

(** In each phase the two clock readings enclose nothing but the
    [ITERATIONS] timed calls: key generations in the first phase,
    signatures with one key generated before the first reading in the
    second, verifications of one signature made before the first reading
    in the third; the stored value is computed from those two readings. *)
Theorem timed_loops (h : host) (sch : scheme) (label : string)
    (results : gmap string float) (s : state) :
  (exists start end_ keys s',
     generate_key h sch label results s =
       (Ok (<[label := per_op_micros start end_]> results), s') /\
     List.length keys = ITERATIONS /\
     trace s' =
       trace s ++ [EvTime start] ++ List.map EvGenerate keys ++ [EvTime end_]) /\
  (exists start end_ sk s',
     sign_message h sch label results s =
       (Ok (<[label := per_op_micros start end_]> results), s') /\
     trace s' =
       trace s ++ [EvGenerate sk; EvTime start] ++
       repeat (EvSign sk message) ITERATIONS ++ [EvTime end_]) /\
  (exists start end_ sk s',
     verify_message h sch label results s =
       (Ok (<[label := per_op_micros start end_]> results), s') /\
     let pk := public_key_of sk in
     trace s' =
       trace s ++ [EvGenerate sk; EvSign sk message; EvTime start] ++
       repeat (EvVerify pk (Signature pk message) message) ITERATIONS ++
       [EvTime end_]).
Proof.
  split; [|split].
  - eexists _, _,
      (List.map (fun i => PrivateKey sch (entropy h (generate_calls s + i)))
         (seq 0 ITERATIONS)), _.
    split; [apply generate_key_run|]. split.
    + now rewrite length_map, length_seq.
    + cbn [trace]. now rewrite List.map_map.
  - eexists _, _, (PrivateKey sch (entropy h (generate_calls s))), _.
    split; [apply sign_message_run|]. reflexivity.
  - eexists _, _, (PrivateKey sch (entropy h (generate_calls s))), _.
    split; [apply verify_message_run|]. reflexivity.
Qed.

(** ** A whole benchmark *)

Lemma benchmark_run (sch : scheme) (l1 l2 l3 : string) (h : host)
    (results : gmap string float) (s : state) :
  l1 <> l2 -> l1 <> l3 -> l2 <> l3 ->
  let t := time_calls s in
  exists r s',
    (results <- generate_key h sch l1 results ;;
     results <- sign_message h sch l2 results ;;
     results <- verify_message h sch l3 results ;;
     ret results) s = (Ok r, s') /\
    time_calls s' = 6 + t /\
    generate_calls s' = 2 + (generate_calls s + ITERATIONS) /\
    r !! l1 = Some (per_op_micros (clock h t) (clock h (1 + t))) /\
    r !! l2 = Some (per_op_micros (clock h (2 + t)) (clock h (3 + t))) /\
    r !! l3 = Some (per_op_micros (clock h (4 + t)) (clock h (5 + t))).
Proof.
  intros H12 H13 H23 t.
  erewrite bind_ok by apply generate_key_run.
  erewrite bind_ok by apply sign_message_run.
  erewrite bind_ok by apply verify_message_run.
  unfold ret. eexists _, _. split; [reflexivity|].
  split; [reflexivity|]. split; [reflexivity|].
  cbn [time_calls]. split; [|split].
  - rewrite lookup_insert_ne by congruence.
    rewrite lookup_insert_ne by congruence. apply lookup_insert_eq.
  - rewrite lookup_insert_ne by congruence. apply lookup_insert_eq.
  - apply lookup_insert_eq.
Qed.

(** A benchmark never raises: it reads the clock six times, generates
    [ITERATIONS] + 2 keys, and files under its three labels the averages of
    the first, second and third pair of readings, in that order. *)
Theorem benchmark_readings (h : host) (results : gmap string float) (s : state) :
  let t := time_calls s in
  (exists r s',
     benchmark_ed25519 h results s = (Ok r, s') /\
     time_calls s' = 6 + t /\
     generate_calls s' = 2 + (generate_calls s + ITERATIONS) /\
     r !! "Ed25519 KeyGen" = Some (per_op_micros (clock h t) (clock h (1 + t))) /\
     r !! "Ed25519 Signing" = Some (per_op_micros (clock h (2 + t)) (clock h (3 + t))) /\
     r !! "Ed25519 Verification" =
       Some (per_op_micros (clock h (4 + t)) (clock h (5 + t)))) /\
  (exists r s',
     benchmark_secp256k1 h results s = (Ok r, s') /\
     time_calls s' = 6 + t /\
     generate_calls s' = 2 + (generate_calls s + ITERATIONS) /\
     r !! "secp256k1 KeyGen" = Some (per_op_micros (clock h t) (clock h (1 + t))) /\
     r !! "secp256k1 Signing" = Some (per_op_micros (clock h (2 + t)) (clock h (3 + t))) /\
     r !! "secp256k1 Verification" =
       Some (per_op_micros (clock h (4 + t)) (clock h (5 + t)))).
Proof.
  intros t. split.
  - exact (benchmark_run Ed25519 "Ed25519 KeyGen" "Ed25519 Signing"
             "Ed25519 Verification" h results s
             ltac:(discriminate) ltac:(discriminate) ltac:(discriminate)).
  - exact (benchmark_run SECP256k1 "secp256k1 KeyGen" "secp256k1 Signing"
             "secp256k1 Verification" h results s
             ltac:(discriminate) ltac:(discriminate) ltac:(discriminate)).
Qed.

(** ** The comparison table *)

Lemma print_rows_spec results ops : forall out,
  exists printed_ops rest rows,
    ops = printed_ops ++ rest /\
    fst (print_rows results ops out) = out ++ rows /\
    Forall2 (row_of results) printed_ops rows /\
    match snd (print_rows results ops out) with
    | None => rest = []
    | Some e => exists op rest', rest = op :: rest' /\ fails_at results op e
    end.
Proof.
  induction ops as [|op ops IH]; intros out.
  - exists [], [], []. simpl. rewrite app_nil_r. repeat split; constructor.
  - cbn [print_rows].
    destruct (results !! ("Ed25519 " ++ op)%string) as [ed_val|] eqn:Eed.
    2:{ exists [], (op :: ops), []. cbn [fst snd]. rewrite app_nil_r.
        repeat split; [constructor|]. exists op, ops. split; [reflexivity|].
        unfold fails_at. now rewrite Eed. }
    destruct (results !! ("secp256k1 " ++ op)%string) as [secp_val|] eqn:Esecp.
    2:{ exists [], (op :: ops), []. cbn [fst snd]. rewrite app_nil_r.
        repeat split; [constructor|]. exists op, ops. split; [reflexivity|].
        unfold fails_at. now rewrite Eed, Esecp. }
    destruct (ed_val =? 0)%float eqn:Ez.
    { exists [], (op :: ops), []. cbn [fst snd]. rewrite app_nil_r.
      repeat split; [constructor|]. exists op, ops. split; [reflexivity|].
      unfold fails_at. now rewrite Eed, Esecp. }
    destruct (IH (out ++ [TableRow op ed_val secp_val (secp_val / ed_val)%float]))
      as (printed_ops & rest & rows & -> & Hout & Hrows & Herr).
    exists (op :: printed_ops), rest,
      (TableRow op ed_val secp_val (secp_val / ed_val)%float :: rows).
    split; [reflexivity|]. split; [now rewrite Hout, <- app_assoc|].
    split; [|exact Herr].
    constructor; [|exact Hrows]. exists ed_val, secp_val. auto.
Qed.

(** The table is printed row by row after its header and rule, and stops
    at the first operation for which a time is missing or the Ed25519 time
    is zero; the rows of the operations before it stay printed, each with
    the ratio of the secp256k1 time to the Ed25519 time. *)
Theorem printing_stops_at_first_failure (results : gmap string float) :
  exists printed_ops rest rows,
    ["KeyGen"; "Signing"; "Verification"] = printed_ops ++ rest /\
    fst (print_benchmark_results results) =
      [Line table_header; Line table_rule] ++ rows /\
    Forall2 (row_of results) printed_ops rows /\
    match snd (print_benchmark_results results) with
    | None => rest = []
    | Some e => exists op rest', rest = op :: rest' /\ fails_at results op e
    end.
Proof. apply print_rows_spec. Qed.

Ltac distinct_keys :=
  intros ->;
  repeat match goal with
         | H : List.NoDup (_ :: _) |- _ => inversion H; clear H; subst
         end;
  simpl in *; tauto.

(** Six assignments under six different keys, read back. *)
Lemma six_inserts_lookup (m : gmap string float) a1 a2 a3 b1 b2 b3
    x1 x2 x3 y1 y2 y3 :
  List.NoDup [a1; a2; a3; b1; b2; b3] ->
  let r := <[b3 := y3]> (<[b2 := y2]> (<[b1 := y1]>
             (<[a3 := x3]> (<[a2 := x2]> (<[a1 := x1]> m))))) in
  r !! a1 = Some x1 /\ r !! a2 = Some x2 /\ r !! a3 = Some x3 /\
  r !! b1 = Some y1 /\ r !! b2 = Some y2 /\ r !! b3 = Some y3.
Proof.
  intros Hnd r. unfold r. repeat split.
  - do 5 (rewrite lookup_insert_ne by distinct_keys). apply lookup_insert_eq.
  - do 4 (rewrite lookup_insert_ne by distinct_keys). apply lookup_insert_eq.
  - do 3 (rewrite lookup_insert_ne by distinct_keys). apply lookup_insert_eq.
  - do 2 (rewrite lookup_insert_ne by distinct_keys). apply lookup_insert_eq.
  - rewrite lookup_insert_ne by distinct_keys. apply lookup_insert_eq.
  - apply lookup_insert_eq.
Qed.

Lemma six_labels_distinct :
  List.NoDup ["Ed25519 KeyGen"; "Ed25519 Signing"; "Ed25519 Verification";
              "secp256k1 KeyGen"; "secp256k1 Signing"; "secp256k1 Verification"].
Proof. repeat constructor; simpl; intuition discriminate. Qed.

(** The mapping [main] builds holds a time under each of the six labels. *)
Lemma main_benchmarks_lookups (h : host) (s : state) :
  exists r s' x1 x2 x3 y1 y2 y3,
    main_benchmarks h s = (Ok r, s') /\
    r !! "Ed25519 KeyGen" = Some x1 /\
    r !! "Ed25519 Signing" = Some x2 /\
    r !! "Ed25519 Verification" = Some x3 /\
    r !! "secp256k1 KeyGen" = Some y1 /\
    r !! "secp256k1 Signing" = Some y2 /\
    r !! "secp256k1 Verification" = Some y3 /\
    dom r = list_to_set (ed25519_labels ++ secp256k1_labels).
Proof.
  unfold main_benchmarks.
  destruct (benchmark_ed25519_run h ∅ s) as (x1 & x2 & x3 & s1 & E1).
  erewrite bind_ok by exact E1. cbv beta.
  match goal with |- context [benchmark_secp256k1 h ?r] =>
    destruct (benchmark_secp256k1_run h r s1) as (y1 & y2 & y3 & s2 & E2)
  end.
  erewrite bind_ok by exact E2. unfold ret.
  eexists _, s2, x1, x2, x3, y1, y2, y3. split; [reflexivity|].
  pose proof (six_inserts_lookup ∅ _ _ _ _ _ _ x1 x2 x3 y1 y2 y3 six_labels_distinct)
    as H.
  cbv zeta in H. destruct H as (H1 & H2 & H3 & H4 & H5 & H6).
  repeat (split; [assumption|]).
  rewrite !three_inserts_dom, dom_empty_L.
  unfold ed25519_labels, secp256k1_labels. set_solver.
Qed.

(** After the two benchmarks the table finds every time it looks up: what
    can still stop it is an Ed25519 time equal to zero, on which the ratio
    raises a division by zero. *)
Theorem table_after_benchmarks (h : host) (s : state) :
  exists r s',
    main_benchmarks h s = (Ok r, s') /\
    match snd (print_benchmark_results r) with
    | None => List.length (fst (print_benchmark_results r)) = 5
    | Some FloatDivisionByZero =>
        exists op ed_val,
          In op ["KeyGen"; "Signing"; "Verification"] /\
          r !! ("Ed25519 " ++ op)%string = Some ed_val /\
          (ed_val =? 0)%float = true
    | Some (MissingKey _) => False
    end.
Proof.
  destruct (main_benchmarks_lookups h s)
    as (r & s' & x1 & x2 & x3 & y1 & y2 & y3 & E & H1 & H2 & H3 & H4 & H5 & H6 & _).
  exists r, s'. split; [exact E|].
  destruct (print_rows_spec r ["KeyGen"; "Signing"; "Verification"]
              [Line table_header; Line table_rule])
    as (printed_ops & rest & rows & Hsplit & Hout & Hrows & Herr).
  fold (print_benchmark_results r) in Hout, Herr.
  destruct (snd (print_benchmark_results r)) as [e|].
  - destruct Herr as (op & rest' & -> & Hfail).
    assert (Hop : In op ["KeyGen"; "Signing"; "Verification"]).
    { rewrite Hsplit. apply in_or_app. right. now left. }
    unfold fails_at in Hfail.
    assert (Hboth : exists ed_val secp_val,
              r !! ("Ed25519 " ++ op)%string = Some ed_val /\
              r !! ("secp256k1 " ++ op)%string = Some secp_val).
    { simpl in Hop. destruct Hop as [<- | [<- | [<- | []]]]; eauto. }
    destruct Hboth as (ed_val & secp_val & Hed & Hsecp).
    rewrite Hed, Hsecp in Hfail. destruct Hfail as [Hz ->].
    exists op, ed_val. auto.
  - subst rest. rewrite app_nil_r in Hsplit. subst printed_ops.
    rewrite Hout, length_app. apply Forall2_length in Hrows.
    rewrite <- Hrows. reflexivity.
Qed.


End RunnerProperties.

(** * From the runner to the report *)

Module PipelineProperties.

Import Benchmark BenchmarkFacts RunnerProperties.
Import Illustrate IllustrateFacts ReportProperties.

Lemma getitem_operation_results_table entries :
  getitem (results_table entries) "Operation" =
  Ok (List.map (fun entry => CStr (fst entry)) entries).
Proof.
  change (getitem (results_table entries) "Operation")
    with (Ok (List.map (fun row => nth 0 row (CNum nan))
                (List.map (fun entry => [CStr (fst entry); CNum (snd entry)]) entries))
          : result (list cell)).
  f_equal. induction entries as [|entry entries IH]; [reflexivity|].
  cbn [List.map nth]. now rewrite IH.
Qed.

Lemma timing_rows_results_table entries :
  timing_rows (results_table entries) = Ok (List.map timing_row entries).
Proof.
  unfold results_table. erewrite timing_rows_frame by reflexivity.
  now rewrite List.map_map.
Qed.

Lemma entry_of_lookup (r : gmap string float) entries op v :
  Permutation entries (map_to_list r) ->
  r !! op = Some v -> In (op, v) entries.
Proof.
  intros Hperm Hr. apply elem_of_map_to_list in Hr.
  apply list_elem_of_In. now rewrite Hperm.
Qed.

Lemma lookup_of_entry (r : gmap string float) entries op v :
  Permutation entries (map_to_list r) ->
  In (op, v) entries -> r !! op = Some v.
Proof.
  intros Hperm Hin. apply elem_of_map_to_list.
  rewrite <- Hperm. now apply list_elem_of_In.
Qed.

(** A results table that holds the entries of the mapping [main] built, in
    whatever order, passes the report generator's validation, and
    extraction returns the runner's six times: the labels the runner files
    its times under are the labels the report generator looks for. *)
Theorem runner_results_are_reported (h : host) (s : state) :
  exists r s',
    main_benchmarks h s = (Ok r, s') /\
    forall entries w,
      Permutation entries (map_to_list r) ->
      files w csv_file = Table (results_table entries) ->
      exists k1 s1 v1 k2 s2 v2,
        load_and_validate_data csv_file w =
          (Ok (results_table entries),
           logged w [loaded_record (results_table entries)]) /\
        extract_benchmark_times (results_table entries) =
          Ok ([k1; s1; v1], [k2; s2; v2]) /\
        r !! "Ed25519 KeyGen" = Some k1 /\
        r !! "Ed25519 Signing" = Some s1 /\
        r !! "Ed25519 Verification" = Some v1 /\
        r !! "secp256k1 KeyGen" = Some k2 /\
        r !! "secp256k1 Signing" = Some s2 /\
        r !! "secp256k1 Verification" = Some v2.
Proof.
  destruct (main_benchmarks_lookups h s)
    as (r & s' & x1 & x2 & x3 & y1 & y2 & y3 & E & H1 & H2 & H3 & H4 & H5 & H6 & _).
  exists r, s'. split; [exact E|].
  intros entries w Hperm Hf.
  assert (Hfound : forall op x, r !! op = Some x ->
            first_time (List.map timing_row entries) op = Some (CNum x)).
  { intros op x Hr.
    destruct (first_time_found entries op) as (x' & Hx' & Hin).
    - exact (in_map fst _ _ (entry_of_lookup r entries op x Hperm Hr)).
    - pose proof (lookup_of_entry r entries op x' Hperm Hin) as Hr'.
      congruence. }
  exists x1, x2, x3, y1, y2, y3.
  split; [|split; [|auto 10]].
  - rewrite (load_table _ _ _ Hf).
    rewrite (has_required_columns (results_table entries)) by reflexivity.
    cbn [truthy]. rewrite getitem_operation_results_table.
    rewrite no_absent_operations; [reflexivity|].
    intros op Hop.
    assert (Hsome : exists x, r !! op = Some x).
    { unfold required_operations in Hop. simpl in Hop.
      destruct Hop as [<- | [<- | [<- | [<- | [<- | [<- | []]]]]]]; eauto. }
    destruct Hsome as [x Hr].
    exact (in_map (fun entry => CStr (fst entry)) _ _
             (entry_of_lookup r entries op x Hperm Hr)).
  - rewrite (extract_rows _ _ (timing_rows_results_table entries)).
    unfold operations_ed25519, operations_secp256k1.
    rewrite (times_of_three _ _ _ _ _ _ _ (Hfound _ _ H1) (Hfound _ _ H2) (Hfound _ _ H3)).
    rewrite (times_of_three _ _ _ _ _ _ _ (Hfound _ _ H4) (Hfound _ _ H5) (Hfound _ _ H6)).
    reflexivity.
Qed.

End PipelineProperties.

(** * The results file written by one script and read by the other *)

Module RoundTripFacts.

Import Benchmark Illustrate RoundTrip IllustrateFacts.

Section Writer.

Variable float_repr : float -> string.

Lemma append_empty (s : string) : (s ++ "" = s)%string.
Proof.
  induction s as [|x s IH]; [reflexivity|].
  change (String x (s ++ "") = String x s)%string. now rewrite IH.
Qed.

(** Rows are appended: what was written stays at the head of the file. *)
Lemma write_items_appends enc items written :
  exists rest,
    snd (write_items float_repr enc items written) = (written ++ rest)%string.
Proof.
  revert written. induction items as [|[k v] items IH]; intros written.
  - exists ""%string. cbn [write_items snd]. now rewrite append_empty.
  - cbn [write_items]. unfold writerow.
    destruct (encode enc (csv_line [k; float_repr v])) as [bytes|e]; cbn [and_then].
    + destruct (IH (written ++ bytes)%string) as [rest Hrest].
      exists (bytes ++ rest)%string. rewrite Hrest. apply append_assoc.
    + exists ""%string. cbn [snd]. now rewrite append_empty.
Qed.

Lemma header_on_latin1 :
  encode Latin1 header_line = Ok latin1_header_line.
Proof. vm_compute. reflexivity. Qed.

(** On a Latin-1 host the file starts with the Latin-1 header line,
    whatever the entries and whether or not a row could be encoded. *)
Lemma latin1_file_starts_with_header results disk0 console0 :
  exists rest,
    disk_after_save float_repr results (FilesHost Latin1 disk0 console0)
      "benchmark_results.csv"
    = Some (latin1_header_line ++ rest)%string.
Proof.
  unfold disk_after_save, save_csv_benchmark_results.
  cbn [preferred_encoding]. unfold writerow.
  change (csv_line ["Operation"; "Time (µs/op)"]) with header_line.
  rewrite header_on_latin1. cbn [and_then].
  change ("" ++ latin1_header_line)%string with latin1_header_line.
  destruct (write_items_appends Latin1 results latin1_header_line) as [rest Hrest].
  exists rest.
  destruct (write_items float_repr Latin1 results latin1_header_line) as [r written].
  cbn [snd] in Hrest. subst written.
  destruct r; cbn [snd disk]; now rewrite String.eqb_refl.
Qed.

(** On a UTF-8 host the save returns, and the file holds the header line
    and the rows' lines as they are. *)
Lemma write_items_utf8 items written :
  write_items float_repr UTF8 items written =
  (Ok tt, (written ++ row_lines float_repr items)%string).
Proof.
  revert written. induction items as [|[k v] items IH]; intros written.
  - cbn [write_items row_lines]. now rewrite append_empty.
  - cbn [write_items row_lines]. unfold writerow. cbn [encode and_then].
    rewrite IH. now rewrite append_assoc.
Qed.

Lemma utf8_file_is_the_text results disk0 console0 :
  fst (save_csv_benchmark_results float_repr results "benchmark_results.csv"
         (FilesHost UTF8 disk0 console0)) = Ok tt /\
  disk_after_save float_repr results (FilesHost UTF8 disk0 console0)
    "benchmark_results.csv"
  = Some (header_line ++ row_lines float_repr results)%string.
Proof.
  unfold disk_after_save, save_csv_benchmark_results.
  cbn [preferred_encoding]. unfold writerow at 1 2. cbn [encode and_then].
  rewrite !write_items_utf8. cbn [fst snd disk].
  now rewrite String.eqb_refl.
Qed.

End Writer.

(** The reader stops at the micro sign of a header written in Latin-1,
    whatever follows the header line. *)
Lemma latin1_header_is_not_utf8 parse rest :
  pandas_reads parse (latin1_header_line ++ rest) = Unreadable header_decode_error.
Proof. vm_compute. reflexivity. Qed.

Lemma load_decode_error path w :
  files w path = Unreadable header_decode_error ->
  load_and_validate_data path w = (Raise header_decode_error, w).
Proof.
  intros Hf. unfold load_and_validate_data, try_except, bind, read_csv.
  rewrite Hf. reflexivity.
Qed.

(** C7, at the input on which the round trip fails.  On a host whose
    preferred encoding is Latin-1, whatever the results mapping, the text
    of its floats and pandas' parser: the file the runner saves starts with
    a header whose micro sign is the byte 0xb5, so the report generator's
    loader, which decodes UTF-8, raises UnicodeDecodeError instead of
    returning the pairs that were written, and the script logs the error
    and exits with status 1. *)
Theorem latin1_host_breaks_the_round_trip (float_repr : float -> string)
    (parse : string -> file) (results : list (string * float))
    (disk0 : string -> option string) (console0 : list string) :
  load_and_validate_data csv_file
    (report_world float_repr parse results (FilesHost Latin1 disk0 console0))
  = (Raise header_decode_error,
     report_world float_repr parse results (FilesHost Latin1 disk0 console0)) /\
  script (report_world float_repr parse results (FilesHost Latin1 disk0 console0))
  = (Exit 1,
     logged (report_world float_repr parse results (FilesHost Latin1 disk0 console0))
       [error_record header_decode_error]).
Proof.
  set (w := report_world float_repr parse results (FilesHost Latin1 disk0 console0)).
  assert (Hf : files w csv_file = Unreadable header_decode_error).
  { unfold w, report_world, fresh_world, files_on_disk. cbn [files].
    destruct (latin1_file_starts_with_header float_repr results disk0 console0)
      as [rest Hrest].
    change csv_file with "benchmark_results.csv"%string.
    rewrite Hrest. apply latin1_header_is_not_utf8. }
  pose proof (load_decode_error csv_file w Hf) as Hl.
  split; [exact Hl|].
  assert (Hm : main w = (Ok false, logged w [error_record header_decode_error])).
  { apply main_known_error; [exact Hl|reflexivity]. }
  exact (script_of_main w false _ Hm).
Qed.

End RoundTripFacts.
